(** * overlay_rules.py: hotkey debounce and overlay visibility

    A shallow embedding of [src/overlay_rules.py]: the debounced global-hotkey
    listener ([KeyboardToggleListener]), the overlay widget ([RulesOverlay])
    and the bootstrap ([main]) with the Qt event loop driven by an explicit
    list of inputs.

    Conventions.
    - Python floats are IEEE-754 binary64 values, taken from the standard
      library's executable specification [SpecFloat] (precision 53,
      exponent bound 1024); no real-number idealisation is made.
    - Python ints are [Z].
    - The pressed-key set is a stdpp [gset].
    - Every method is a computation in a small state-and-trace monad: it
      threads the object it mutates and records, in program order, the
      calls it makes to the outside (lock, clock, callback, Qt, printing). *)

From Stdlib Require Import ZArith List Bool String Ascii Lia SpecFloat.
From stdpp Require Import base countable gmap sets strings.
Import ListNotations.

Local Open Scope string_scope.
Local Open Scope list_scope.
Local Open Scope Z_scope.

(* ===================================================================== *)
(** ** Python floats *)
(* ===================================================================== *)

Module PyFloat.

Definition float : Type := spec_float.

Definition prec : Z := 53.
Definition emax : Z := 1024.

(** [a - b] *)
Definition sub (a b : float) : float := SFsub prec emax a b.

(** [a >= b]: false as soon as one side is a NaN. *)
Definition ge (a b : float) : bool := SFleb b a.

(** [a < b] *)
Definition lt (a b : float) : bool := SFltb a b.

(** [a + b] *)
Definition add (a b : float) : float := SFadd prec emax a b.

(** The integer [n] as a float (exact for the small values used here). *)
Definition of_Z (n : Z) : float := binary_normalize prec emax n 0 false.

(** [a / b], correctly rounded; used to check the literals below. *)
Definition div (a b : float) : float := SFdiv prec emax a b.

(** The literal [0.0]. *)
Definition f0_0 : float := S754_zero false.
(** The literal [0.4], i.e. 0x1.999999999999ap-2. *)
Definition f0_4 : float := S754_finite false 7205759403792794 (-54).
(** The literal [0.1], i.e. 0x1.999999999999ap-4. *)
Definition f0_1 : float := S754_finite false 7205759403792794 (-56).
(** The literal [0.5]. *)
Definition f0_5 : float := S754_finite false 4503599627370496 (-53).

(** A float an IEEE-754 double can hold. *)
Definition valid (x : float) : bool := valid_binary prec emax x.

End PyFloat.

Import PyFloat.

(* ===================================================================== *)
(** ** Keys delivered by pynput *)
(* ===================================================================== *)

(** The objects pynput hands to [on_press] / [on_release]: a
    [keyboard.KeyCode], a member of the [keyboard.Key] enumeration, or
    [None] for an unknown key.

    The pressed-key set is a Python [set], so keys count as one element
    when they hash alike and compare equal.  [KeyCode.__hash__] hashes the
    [repr] and [KeyCode.__eq__] compares, for two keys with a character,
    the character and the dead-key flag, and otherwise the [vk]: a
    [KeyCode] with a character is identified by [char] and [is_dead]
    whatever its [vk] (the top-row and the keypad "1" are one element), and
    a [KeyCode] without a character by its [vk].  A [key] is a pynput key
    up to that identity, so that equality of [key]s is membership identity
    in the Python set. *)
Inductive key : Type :=
| KeyCode (char : string) (is_dead : bool)  (* a [KeyCode] whose [char] is not [None] *)
| KeyCodeVk (vk : Z)                        (* a [KeyCode] whose [char] is [None] *)
| Key (name : string)                       (* a member of [keyboard.Key] *)
| KeyNone.                                  (* [None] *)

#[global] Instance key_eq_dec : EqDecision key.
Proof. solve_decision. Defined.

Definition key_encode (k : key) : (string * bool) + (Z + (string + unit)) :=
  match k with
  | KeyCode c d => inl (c, d)
  | KeyCodeVk vk => inr (inl vk)
  | Key n => inr (inr (inl n))
  | KeyNone => inr (inr (inr tt))
  end.

Definition key_decode (x : (string * bool) + (Z + (string + unit))) : key :=
  match x with
  | inl (c, d) => KeyCode c d
  | inr (inl vk) => KeyCodeVk vk
  | inr (inr (inl n)) => Key n
  | inr (inr (inr _)) => KeyNone
  end.

#[global] Instance key_countable : Countable key.
Proof.
  apply (inj_countable' key_encode key_decode).
  intros [c d| vk | n |]; reflexivity.
Defined.

(** [KeyCode(vk=vk, char=char)] and [KeyCode.from_char(char, vk=vk)]: the
    [vk], if any, does not tell such keys apart. *)
Definition from_char (char : string) (vk : option Z) : key := KeyCode char false.
(** [KeyCode.from_dead(char, vk=vk)] *)
Definition from_dead (char : string) (vk : option Z) : key := KeyCode char true.
(** [KeyCode.from_vk(vk)] *)
Definition from_vk (vk : Z) : key := KeyCodeVk vk.

(** [isinstance(k, keyboard.KeyCode) and k.char == "1"] *)
Definition is_char_one (k : key) : bool :=
  match k with
  | KeyCode c _ => String.eqb c "1"
  | _ => false
  end.

(** The module-level name [keyboard]: the imported pynput module, or [None]
    when the import raised (lines 11-14). *)
Inductive pynput_module : Type := PynputKeyboard.
Definition keyboard_t : Type := option pynput_module.

(* ===================================================================== *)
(** ** Effects and the state-and-trace monad *)
(* ===================================================================== *)

Inductive window_flag : Type :=
| FramelessWindowHint | WindowStaysOnTopHint | Tool | X11BypassWindowManagerHint.

Inductive widget_attribute : Type :=
| WA_TranslucentBackground | WA_TransparentForMouseEvents.

Inductive text_format : Type := AutoText | RichText.

(** A [QLabel] as [_build_ui] leaves it. *)
Record QLabel : Type := mkLabel {
  label_text : string;
  label_style_sheet : string;
  label_text_format : text_format;
  label_word_wrap : bool
}.

(** A [QVBoxLayout]: contents margins (left, top, right, bottom), the
    spacing if one was set, and the labels added, top to bottom. *)
Record panel_layout : Type := mkPanelLayout {
  panel_margins : Z * Z * Z * Z;
  panel_spacing : option Z;
  panel_widgets : list QLabel
}.

(** The layout installed on the overlay itself: its margins and the one
    [QFrame] it holds, given by that frame's own layout. *)
Record root_layout : Type := mkRootLayout {
  root_margins : Z * Z * Z * Z;
  root_panel : panel_layout
}.

(** Callables handed to Qt: the two slots the program schedules. *)
Inductive slot : Type :=
| SlotInitialHint        (* the closure [initial_hint] of [main] *)
| SlotToggleVisibility.  (* the bound method [overlay.toggle_visibility] *)

(** Calls that leave the object being run, in the order they are made. *)
Inductive effect : Type :=
| LockAcquire                      (* entering [with self._lock] *)
| LockRelease                      (* leaving  [with self._lock] *)
| Monotonic (now : float)          (* [time.monotonic()] returned [now] *)
| ReadLastToggle (t : float)       (* [self._last_toggle_monotonic] was read as [t] *)
| WriteLastToggle (t : float)      (* [self._last_toggle_monotonic = t] *)
| OnToggle                         (* [self._on_toggle()] *)
| Print (line : string)            (* [print(line)] *)
| ListenerStart                    (* [self._listener.start()] *)
| ListenerStop                     (* [self._listener.stop()] *)
| QtSetLayout (l : root_layout)     (* [QtWidgets.QVBoxLayout(self)], filled *)
| QtSetStyleSheet (css : string)   (* [self.setStyleSheet(css)] *)
| QtSetFixedWidth (w : Z)           (* [self.setFixedWidth(w)] *)
| QtSetAttribute (a : widget_attribute) (on : bool)
| QtSetWindowFlags (fl : list window_flag)
| QtMove (x y : Z)                 (* [self.move(x, y)] *)
| QtShow | QtRaise | QtActivateWindow | QtHide
| QtSingleShot (ms : Z) (s : slot) (* [QtCore.QTimer.singleShot(ms, s)] *)
| QtEmitToggleRequested.           (* [bridge.toggleRequested.emit()] *)

Definition trace : Type := list effect.

(** A computation over a mutable object of type [S]: result, new object,
    effects performed. *)
Definition M (S A : Type) : Type := S -> A * S * trace.

Definition ret {S A} (a : A) : M S A := fun s => (a, s, []).

Definition bind {S A B} (m : M S A) (k : A -> M S B) : M S B :=
  fun s =>
    let '(a, s1, t1) := m s in
    let '(b, s2, t2) := k a s1 in
    (b, s2, t1 ++ t2).

Definition get {S} : M S S := fun s => (s, s, []).
Definition modify {S} (f : S -> S) : M S unit := fun s => (tt, f s, []).
Definition perform {S} (e : effect) : M S unit := fun s => (tt, s, [e]).

Declare Scope py_scope.
Delimit Scope py_scope with py.
Notation "x <- m ;; k" := (bind m (fun x => k))
  (at level 100, m at next level, k at level 200, right associativity) : py_scope.
Notation "m ;; k" := (bind m (fun _ => k))
  (at level 100, k at level 200, right associativity) : py_scope.
Local Open Scope py_scope.

(** [if c: body] with no [else]. *)
Definition when {S} (c : bool) (body : M S unit) : M S unit :=
  if c then body else ret tt.

(** [with self._lock: body] *)
Definition with_lock {S A} (body : M S A) : M S A :=
  perform LockAcquire ;; r <- body ;; perform LockRelease ;; ret r.

(** [time.monotonic()], when the clock reads [now]. *)
Definition time_monotonic {S} (now : float) : M S float :=
  perform (Monotonic now) ;; ret now.

Definition run_state {S A} (m : M S A) (s : S) : S := snd (fst (m s)).
Definition run_trace {S A} (m : M S A) (s : S) : trace := snd (m s).
Definition run_value {S A} (m : M S A) (s : S) : A := fst (fst (m s)).

(* ===================================================================== *)
(** ** KeyboardToggleListener *)
(* ===================================================================== *)

(** The [keyboard.Listener] thread object: created, then started, then
    stopped. *)
Record PynputListener : Type := mkPynputListener {
  started : bool;
  stopped : bool
}.

(** The attributes of a listener.  [_on_toggle] is a callable and [_lock]
    a mutex; both show in the trace, as [OnToggle] and as [LockAcquire] /
    [LockRelease], rather than as fields.  Reads and writes of
    [_last_toggle_monotonic] show in the trace too, so that the trace tells
    whether they happen while the lock is held. *)
Record KeyboardToggleListener : Type := mkListener {
  _pressed : gset key;
  _last_toggle_monotonic : float;
  _debounce_seconds : float;
  _listener : option PynputListener
}.

Definition set_pressed (p : gset key) (self : KeyboardToggleListener) :=
  mkListener p (_last_toggle_monotonic self) (_debounce_seconds self) (_listener self).
Definition set_last_toggle (t : float) (self : KeyboardToggleListener) :=
  mkListener (_pressed self) t (_debounce_seconds self) (_listener self).
Definition set_listener (l : option PynputListener) (self : KeyboardToggleListener) :=
  mkListener (_pressed self) (_last_toggle_monotonic self) (_debounce_seconds self) l.

(** Reading and assigning [self._last_toggle_monotonic]; each access shows
    in the trace where it happens. *)
Definition read_last_toggle : M KeyboardToggleListener float :=
  self <- get ;;
  perform (ReadLastToggle (_last_toggle_monotonic self)) ;;
  ret (_last_toggle_monotonic self).

Definition write_last_toggle (t : float) : M KeyboardToggleListener unit :=
  perform (WriteLastToggle t) ;;
  modify (set_last_toggle t).

Section Listener.

(** The module global [keyboard]. *)
Variable keyboard : keyboard_t.

(** [KeyboardToggleListener.__init__] (lines 133-143).  The callback
    [on_toggle] is kept as the effect [OnToggle]. *)
Definition KeyboardToggleListener__init__ : KeyboardToggleListener :=
  {| _pressed := ∅;
     _last_toggle_monotonic := f0_0;
     _debounce_seconds := f0_4;
     _listener := match keyboard with
                  | None => None
                  | Some _ => Some (mkPynputListener false false)
                  end |}.

(** [start] (lines 145-149) *)
Definition start : M KeyboardToggleListener unit :=
  self <- get ;;
  match _listener self with
  | None =>
      perform (Print "[overlay] pynput not available. Install requirements or switch to X11.")
  | Some l =>
      perform ListenerStart ;;
      modify (set_listener (Some (mkPynputListener true (stopped l))))
  end.

(** [stop] (lines 151-153) *)
Definition stop : M KeyboardToggleListener unit :=
  self <- get ;;
  match _listener self with
  | Some l =>
      perform ListenerStop ;;
      modify (set_listener (Some (mkPynputListener (started l) true)))
  | None => ret tt
  end.

(** [_is_one_key] (lines 168-174) *)
Definition _is_one_key (self : KeyboardToggleListener) : bool :=
  match keyboard with
  | None => false
  | Some _ => existsb is_char_one (elements (_pressed self))
  end.

(** [_on_press] (lines 155-162); [now] is what [time.monotonic()] returns
    if this invocation reads the clock. *)
Definition _on_press (now : float) (k : key) : M KeyboardToggleListener unit :=
  with_lock (
    modify (fun self => set_pressed ({[ k ]} ∪ _pressed self) self) ;;
    self <- get ;;
    when (_is_one_key self) (
      now <- time_monotonic now ;;
      last <- read_last_toggle ;;
      self <- get ;;
      when (ge (sub now last) (_debounce_seconds self)) (
        write_last_toggle now ;;
        perform OnToggle))).

(** [_on_release] (lines 164-166) *)
Definition _on_release (k : key) : M KeyboardToggleListener unit :=
  with_lock (modify (fun self => set_pressed (_pressed self ∖ {[ k ]}) self)).

End Listener.

(* ===================================================================== *)
(** ** RulesOverlay *)
(* ===================================================================== *)

(** [QScreen.availableGeometry()] *)
Record QRect : Type := mkQRect {
  rect_left : Z;
  rect_top : Z;
  rect_width : Z;
  rect_height : Z
}.

(** The widget: the Python attribute [_is_visible] and the part of the
    underlying [QWidget] the program acts on. *)
Record RulesOverlay : Type := mkOverlay {
  _is_visible : bool;
  widget_visible : bool;            (* Qt's [isVisible()] *)
  widget_pos : Z * Z;               (* Qt's [pos()] *)
  widget_flags : list window_flag   (* Qt's [windowFlags()] *)
}.

Definition set_is_visible (b : bool) (self : RulesOverlay) :=
  mkOverlay b (widget_visible self) (widget_pos self) (widget_flags self).
Definition set_widget_visible (b : bool) (self : RulesOverlay) :=
  mkOverlay (_is_visible self) b (widget_pos self) (widget_flags self).
Definition set_widget_pos (p : Z * Z) (self : RulesOverlay) :=
  mkOverlay (_is_visible self) (widget_visible self) p (widget_flags self).
Definition set_widget_flags (fl : list window_flag) (self : RulesOverlay) :=
  mkOverlay (_is_visible self) (widget_visible self) (widget_pos self) fl.

(** The inherited [QWidget] methods used by the class. *)
Definition show : M RulesOverlay unit :=
  perform QtShow ;; modify (set_widget_visible true).
Definition hide : M RulesOverlay unit :=
  perform QtHide ;; modify (set_widget_visible false).
Definition raise_ : M RulesOverlay unit := perform QtRaise.
Definition activateWindow : M RulesOverlay unit := perform QtActivateWindow.
Definition move (x y : Z) : M RulesOverlay unit :=
  perform (QtMove x y) ;; modify (set_widget_pos (x, y)).
Definition setWindowFlags (fl : list window_flag) : M RulesOverlay unit :=
  perform (QtSetWindowFlags fl) ;; modify (set_widget_flags fl).

(** The three labels of the panel (lines 38-68). *)
Definition title_label : QLabel :=
  mkLabel "Arena Control – Quick Rules"
          "font-weight: 700; font-size: 16px; color: #E8EAED;" AutoText false.

Definition rules_label : QLabel :=
  mkLabel "
            <div style='color:#E8EAED; font-size:13px; line-height:1.35;'>
              <ul style='margin:0 0 0 16px; padding:0;'>
                <li><b>Survive first</b>: close if an intercept is possible.</li>
                <li><b>Edge-hug growth</b>: bite 3–6 deep, then close.</li>
                <li><b>Short, fat loops</b>: avoid long skinny runs.</li>
                <li><b>Two-turn return</b>: always 2 quick turns from safety.</li>
                <li><b>Extend only if</b>: T_close + 2 &lt; min T_intercept.</li>
                <li><b>Backcut kills</b>: cross behind outsiders, then close.</li>
                <li><b>Wall pinch</b>: cut perpendicularly near walls.</li>
                <li><b>Bait &amp; snap</b>: fake wide, snap to close.</li>
                <li><b>Don’t mirror pursuers</b>: angle toward your border.</li>
                <li><b>Perimeter sweep</b>: short rhythmic bites auto-punish.</li>
                <li><b>No greed</b>: never 10–15 deep early.</li>
              </ul>
              <div style='margin-top:10px; font-size:12px; color:#9AA0A6;'>
                Toggle overlay: <b>1</b>
              </div>
            </div>
            " "" RichText true.

Definition footer_label : QLabel :=
  mkLabel "Press 1 to show/hide. Press Ctrl+C in terminal to quit."
          "font-size: 11px; color: #9AA0A6;" AutoText false.

(** The panel, a [QFrame] child of the overlay, with its layout (lines
    33-36 and 70-72). *)
Definition panel : panel_layout :=
  mkPanelLayout (16, 14, 16, 14) (Some 8) [title_label; rules_label; footer_label].

(** The layout [root] installed on the overlay (lines 74-76). *)
Definition root : root_layout := mkRootLayout (0, 0, 0, 0) panel.

(** The style sheet of the overlay (lines 78-86). *)
Definition overlay_style_sheet : string :=
  "
            QFrame {
                background: rgba(16, 18, 27, 200);
                border-radius: 10px;
                border: 1px solid rgba(255,255,255,0.06);
            }
            ".

(** [_build_ui] (lines 32-90): the panel and its labels are built, the
    layout holding the panel is installed on [self], then the calls on
    [self] follow in the order of the source. *)
Definition _build_ui : M RulesOverlay unit :=
  perform (QtSetLayout root) ;;
  perform (QtSetStyleSheet overlay_style_sheet) ;;
  perform (QtSetFixedWidth 480) ;;
  perform (QtSetAttribute WA_TranslucentBackground true) ;;
  perform (QtSetAttribute WA_TransparentForMouseEvents true).

(** [_apply_window_flags] (lines 92-101); [platform] is [sys.platform]. *)
Definition _apply_window_flags (platform : string) : M RulesOverlay unit :=
  let flags := [FramelessWindowHint; WindowStaysOnTopHint; Tool] in
  let flags := if String.prefix "linux" platform
               then flags ++ [X11BypassWindowManagerHint] else flags in
  setWindowFlags flags.

(** [_position_window] (lines 103-110); [geo] is the available geometry of
    the primary screen. *)
Definition _position_window (geo : QRect) : M RulesOverlay unit :=
  let margin := 24 in
  let x := rect_left geo + margin in
  let y := rect_top geo + margin in
  move x y.

(** A freshly created [QWidget]: hidden, at the origin, no flags. *)
Definition QWidget__init__ : RulesOverlay := mkOverlay false false (0, 0) [].

(** [RulesOverlay.__init__] (lines 24-30) *)
Definition RulesOverlay__init__ (platform : string) (geo : QRect) : M RulesOverlay unit :=
  modify (set_is_visible false) ;;
  _build_ui ;;
  _apply_window_flags platform ;;
  _position_window geo ;;
  hide.

(** [toggle_visibility] (lines 112-120) *)
Definition toggle_visibility : M RulesOverlay unit :=
  modify (fun self => set_is_visible (negb (_is_visible self)) self) ;;
  self <- get ;;
  if _is_visible self then
    show ;; raise_ ;; activateWindow
  else
    hide.

(* ===================================================================== *)
(** ** The bootstrap and the event loop *)
(* ===================================================================== *)

(** What the process is started in. *)
Record environment : Type := mkEnv {
  keyboard : keyboard_t;               (* the module global after the import *)
  XDG_SESSION_TYPE : option string;    (* [os.environ] entry, if set *)
  platform : string;                   (* [sys.platform] *)
  available_geometry : QRect           (* of [QApplication.primaryScreen()] *)
}.

(** The live objects of [main] and the Qt event queue of the UI thread. *)
Record App : Type := mkApp {
  overlay : RulesOverlay;
  listener : KeyboardToggleListener;
  timers : list (Z * slot);   (* pending single shots: due time in ms, callable *)
  posted : list slot;         (* queued slot calls, oldest first *)
  elapsed : Z                 (* ms since startup when the last timer ran *)
}.

Definition set_overlay (o : RulesOverlay) (a : App) :=
  mkApp o (listener a) (timers a) (posted a) (elapsed a).
Definition set_app_listener (l : KeyboardToggleListener) (a : App) :=
  mkApp (overlay a) l (timers a) (posted a) (elapsed a).
Definition set_timers (ts : list (Z * slot)) (a : App) :=
  mkApp (overlay a) (listener a) ts (posted a) (elapsed a).
Definition set_posted (q : list slot) (a : App) :=
  mkApp (overlay a) (listener a) (timers a) q (elapsed a).
Definition set_elapsed (t : Z) (a : App) :=
  mkApp (overlay a) (listener a) (timers a) (posted a) t.

(** Run a method of [overlay] inside the application. *)
Definition on_overlay {A} (m : M RulesOverlay A) : M App A :=
  fun a => let '(r, o, t) := m (overlay a) in (r, set_overlay o a, t).

(** [QtCore.QTimer.singleShot(ms, s)] *)
Definition singleShot (ms : Z) (s : slot) : M App unit :=
  perform (QtSingleShot ms s) ;;
  modify (fun a => set_timers (timers a ++ [(elapsed a + ms, s)]) a).

(** [bridge.toggleRequested.emit()].  The signal is raised on the hook
    thread and its receiver lives on the UI thread, so the connected slot
    [overlay.toggle_visibility] (line 190) is queued, not run. *)
Definition emit_toggleRequested : M App unit :=
  perform QtEmitToggleRequested ;;
  modify (fun a => set_posted (posted a ++ [SlotToggleVisibility]) a).

(** The callable given to the listener at line 192. *)
Definition on_toggle : M App unit := emit_toggleRequested.

(** Replays the effects of a listener method inside the application,
    running the callback where the method invoked it. *)
Fixpoint replay (t : trace) : M App unit :=
  match t with
  | [] => ret tt
  | OnToggle :: t' => perform OnToggle ;; on_toggle ;; replay t'
  | e :: t' => perform e ;; replay t'
  end.

(** Run a method of [listener] inside the application. *)
Definition on_listener {A} (m : M KeyboardToggleListener A) : M App A :=
  fun a =>
    let '(r, l, t) := m (listener a) in
    let '(_, a', t') := replay t (set_app_listener l a) in
    (r, a', t').

(** The closure [initial_hint] (lines 197-199) *)
Definition initial_hint : M App unit :=
  on_overlay toggle_visibility ;;
  singleShot 2000 SlotToggleVisibility.

Definition call (s : slot) : M App unit :=
  match s with
  | SlotInitialHint => initial_hint
  | SlotToggleVisibility => on_overlay toggle_visibility
  end.

(** The pending timer that is due first (the older one on a tie), and the
    others. *)
Fixpoint pop_earliest (ts : list (Z * slot)) : option ((Z * slot) * list (Z * slot)) :=
  match ts with
  | [] => None
  | t :: rest =>
      match pop_earliest rest with
      | None => Some (t, [])
      | Some (u, rest') =>
          if fst u <? fst t then Some (u, t :: rest') else Some (t, rest)
      end
  end.

(** Is the hook thread alive, i.e. does pynput call back? *)
Definition hook_running (l : KeyboardToggleListener) : bool :=
  match _listener l with
  | Some h => started h && negb (stopped h)
  | None => false
  end.

(** What can happen while the process runs, in the order it happens. *)
Inductive input : Type :=
| KeyDown (k : key) (now : float)  (* a key goes down while the clock reads [now] *)
| KeyUp (k : key)                  (* a key goes up *)
| TimerDue (late : Z)              (* the earliest pending single shot expires and
                                      runs, [late] ms after it was due (not before) *)
| Dispatch.                        (* the loop delivers the oldest queued slot call *)

Definition step (kbd : keyboard_t) (i : input) : M App unit :=
  a <- get ;;
  match i with
  | KeyDown k now =>
      when (hook_running (listener a)) (on_listener (_on_press kbd now k))
  | KeyUp k =>
      when (hook_running (listener a)) (on_listener (_on_release k))
  | TimerDue late =>
      match pop_earliest (timers a) with
      | None => ret tt
      | Some ((due, s), rest) =>
          modify (fun a => set_elapsed (Z.max (elapsed a) due + Z.max 0 late)
                             (set_timers rest a)) ;;
          call s
      end
  | Dispatch =>
      match posted a with
      | [] => ret tt
      | s :: rest => modify (set_posted rest) ;; call s
      end
  end.

Fixpoint run_loop (kbd : keyboard_t) (inputs : list input) : M App unit :=
  match inputs with
  | [] => ret tt
  | i :: rest => step kbd i ;; run_loop kbd rest
  end.

(** How [app.exec()] ends. *)
Inductive loop_exit : Type :=
| LoopReturn (rc : Z)
| LoopRaise (exn : string).

(** A Python call either returns or raises. *)
Inductive result (A : Type) : Type :=
| Returned (a : A)
| Raised (exn : string).
Arguments Returned {A} a.
Arguments Raised {A} exn.

(** [app.exec()]: processes [inputs], then ends as [exit] says. *)
Definition app_exec (kbd : keyboard_t) (inputs : list input) (exit : loop_exit)
  : M App (result Z) :=
  run_loop kbd inputs ;;
  ret (match exit with
       | LoopReturn rc => Returned rc
       | LoopRaise exn => Raised exn
       end).

(** [try: r = body finally: fin] *)
Definition try_finally {S A} (body : M S (result A)) (fin : M S unit) : M S (result A) :=
  r <- body ;; fin ;; ret r.

Definition ascii_lower (c : ascii) : ascii :=
  let n := nat_of_ascii c in
  if ((65 <=? n) && (n <=? 90))%nat then ascii_of_nat (n + 32) else c.

(** [str.lower()], on the ASCII letters (no other character lowers to a
    letter of "wayland"). *)
Fixpoint lower (s : string) : string :=
  match s with
  | EmptyString => EmptyString
  | String c s' => String (ascii_lower c) (lower s')
  end.

(** [_warn_if_wayland] (lines 177-180) *)
Definition _warn_if_wayland {S} (env : environment) : M S unit :=
  when (String.eqb (lower (default "" (XDG_SESSION_TYPE env))) "wayland") (
    perform (Print "[overlay] Detected Wayland session. Global hotkeys may not work due to compositor restrictions.") ;;
    perform (Print "[overlay] If toggle doesn't work, try an X11 session or a compositor that permits global listeners.")).

(** The application before [main] has built anything. *)
Definition App__init__ (env : environment) : App :=
  mkApp QWidget__init__ (KeyboardToggleListener__init__ (keyboard env)) [] [] 0.

(** [main] (lines 183-207), up to the event loop. *)
Definition main_setup (env : environment) : M App unit :=
  _warn_if_wayland env ;;
  on_overlay (RulesOverlay__init__ (platform env) (available_geometry env)) ;;
  on_listener start ;;
  singleShot 300 SlotInitialHint.

(** [main] (lines 183-207): [int(rc)] is [rc], which is already an int. *)
Definition main_body (env : environment) (inputs : list input) (exit : loop_exit)
  : M App (result Z) :=
  main_setup env ;;
  try_finally (app_exec (keyboard env) inputs exit) (on_listener stop).

Definition main (env : environment) (inputs : list input) (exit : loop_exit)
  : result Z * App * trace :=
  main_body env inputs exit (App__init__ env).

(** The application as it stands when the loop has processed [inputs]. *)
Definition app_after (env : environment) (inputs : list input) : App :=
  run_state (main_setup env ;; run_loop (keyboard env) inputs) (App__init__ env).

(** Number of callback invocations recorded in a trace. *)
Definition is_OnToggle (e : effect) : bool :=
  match e with OnToggle => true | _ => false end.
Definition toggles (t : trace) : nat := length (List.filter is_OnToggle t).

Definition is_QtMove (e : effect) : bool :=
  match e with QtMove _ _ => true | _ => false end.

(** ** Driving the listener with a sequence of hook events *)

(** What the hook thread does with one event; timer and dispatch events
    belong to the UI thread and do not reach the listener. *)
Definition hook_call (kbd : keyboard_t) (i : input) : M KeyboardToggleListener unit :=
  match i with
  | KeyDown k now => _on_press kbd now k
  | KeyUp k => _on_release k
  | TimerDue _ | Dispatch => ret tt
  end.

(** The events one after the other: the trace of each, and the listener at
    the end. *)
Fixpoint hook_calls (kbd : keyboard_t) (evs : list input) (self : KeyboardToggleListener)
  : list trace * KeyboardToggleListener :=
  match evs with
  | [] => ([], self)
  | i :: rest =>
      let '(_, self1, t) := hook_call kbd i self in
      let '(ts, self2) := hook_calls kbd rest self1 in
      (t :: ts, self2)
  end.

(** The key an event is about. *)
Definition input_key (i : input) : option key :=
  match i with
  | KeyDown k _ | KeyUp k => Some k
  | TimerDue _ | Dispatch => None
  end.

Definition about_char_one (i : input) : bool :=
  match input_key i with Some k => is_char_one k | None => false end.

(** Key-down events of toggle keys at the given clock readings. *)
Definition toggle_key_down (i : input) : bool :=
  match i with KeyDown k _ => is_char_one k | _ => false end.

Definition reading (i : input) : float :=
  match i with KeyDown _ now => now | _ => f0_0 end.

(** [rel] holds between every timestamp and the one before it, the first
    being compared with [prev]. *)
Fixpoint chained (rel : float -> float -> bool) (prev : float) (ts : list float) : bool :=
  match ts with
  | [] => true
  | t :: rest => rel t prev && chained rel t rest
  end.

(** [t] is at least 0.4 after [prev], measured as the code measures it. *)
Definition apart (t prev : float) : bool := ge (sub t prev) f0_4.
(** [t] is less than 0.4 after [prev]. *)
Definition close (t prev : float) : bool := lt (sub t prev) f0_4.

(** Consecutive timestamps, with nothing known before the first. *)
Definition consecutive (rel : float -> float -> bool) (ts : list float) : bool :=
  match ts with
  | [] => true
  | t :: rest => chained rel t rest
  end.

(** A burst: the first timestamp is at least 0.4 after [prev] and every
    later one is less than 0.4 after the first. *)
Definition burst (prev : float) (ts : list float) : bool :=
  match ts with
  | [] => false
  | t1 :: rest => apart t1 prev && forallb (fun t => close t t1) rest
  end.

(** ** Reading traces *)

(** The trace of a listener method as it appears once the callback of
    line 192 runs at each invocation. *)
Fixpoint with_callback (t : trace) : trace :=
  match t with
  | [] => []
  | OnToggle :: t' => OnToggle :: QtEmitToggleRequested :: with_callback t'
  | e :: t' => e :: with_callback t'
  end.

(** Effects that only the hook thread and its callback produce. *)
Definition is_hook_effect (e : effect) : bool :=
  match e with
  | LockAcquire | LockRelease | Monotonic _ | ReadLastToggle _ | WriteLastToggle _
  | OnToggle | ListenerStart | QtEmitToggleRequested => true
  | _ => false
  end.

(** What [main] hands back when the loop ends as [exit] says. *)
Definition exit_result (exit : loop_exit) : result Z :=
  match exit with
  | LoopReturn rc => Returned rc
  | LoopRaise exn => Raised exn
  end.

Definition is_TimerDue (i : input) : bool :=
  match i with TimerDue _ => true | _ => false end.

(** Number of timer expirations among the inputs. *)
Definition timer_expirations (inputs : list input) : nat :=
  length (List.filter is_TimerDue inputs).

(** Effects the running loop can produce: those of the hook callbacks and
    of the two slots. *)
Definition is_loop_effect (e : effect) : bool :=
  match e with
  | LockAcquire | LockRelease | Monotonic _ | ReadLastToggle _ | WriteLastToggle _
  | OnToggle | QtEmitToggleRequested
  | QtShow | QtRaise | QtActivateWindow | QtHide | QtSingleShot _ _ => true
  | _ => false
  end.

(** Effects [main] produces before the loop starts. *)
Definition is_setup_effect (e : effect) : bool :=
  match e with
  | Print _ | QtSetLayout _ | QtSetStyleSheet _
  | QtSetFixedWidth _ | QtSetAttribute _ _ | QtSetWindowFlags _
  | QtMove _ _ | QtHide | ListenerStart | QtSingleShot _ _ => true
  | _ => false
  end.

Definition main_result (env : environment) (inputs : list input) (exit : loop_exit) : result Z :=
  fst (fst (main env inputs exit)).
Definition main_app (env : environment) (inputs : list input) (exit : loop_exit) : App :=
  snd (fst (main env inputs exit)).
Definition main_trace (env : environment) (inputs : list input) (exit : loop_exit) : trace :=
  snd (main env inputs exit).

Definition is_single_shot (e : effect) : bool :=
  match e with QtSingleShot _ _ => true | _ => false end.

(** Where the startup hint stands after [n] timer expirations when no hook
    thread runs: not shown yet, with the hint due at 300 ms; showing, with
    the hide due 2000 ms after the moment the hint ran (the loop's time has
    not moved since); or over. *)
Definition hint_phase (n : nat) (a : App) : Prop :=
  posted a = [] /\ hook_running (listener a) = false /\
  match n with
  | O =>
      timers a = [(300, SlotInitialHint)] /\ elapsed a = 0 /\
      _is_visible (overlay a) = false /\ widget_visible (overlay a) = false
  | S O =>
      timers a = [(elapsed a + 2000, SlotToggleVisibility)] /\ 300 <= elapsed a /\
      _is_visible (overlay a) = true /\ widget_visible (overlay a) = true
  | S (S _) =>
      timers a = [] /\
      _is_visible (overlay a) = false /\ widget_visible (overlay a) = false
  end.

(** What the loop has done after [n] timer expirations when no hook thread
    runs: nothing; the hint's show with the hide scheduled 2000 ms on; and
    then the hide. *)
Definition hint_effects (n : nat) : trace :=
  match n with
  | O => []
  | S O => [QtShow; QtRaise; QtActivateWindow; QtSingleShot 2000 SlotToggleVisibility]
  | S (S _) => [QtShow; QtRaise; QtActivateWindow; QtSingleShot 2000 SlotToggleVisibility;
                QtHide]
  end.

Definition is_key_event (i : input) : bool :=
  match i with KeyDown _ _ | KeyUp _ => true | _ => false end.

(** The simulated key events of the end-to-end scenario: three presses of
    [k], at the clock readings [r0], [r1] and [r2]. *)
Definition presses_at (k : key) (r0 r1 r2 : float) : list input :=
  [KeyDown k r0; KeyDown k r1; KeyDown k r2].

(** ** Observing whole event sequences *)

Definition is_KeyDown (i : input) : bool :=
  match i with KeyDown _ _ => true | _ => false end.

(** The clock readings of the events whose trace holds a callback
    invocation, in order. *)
Fixpoint fire_times (evs : list input) (ts : list trace) : list float :=
  match evs, ts with
  | i :: evs', t :: ts' =>
      (if (0 <? toggles t)%nat then [reading i] else []) ++ fire_times evs' ts'
  | _, _ => []
  end.

(** Whether the most recent event about key [x] is a press, [before]
    standing for the time before the events. *)
Fixpoint held (x : key) (evs : list input) (before : bool) : bool :=
  match evs with
  | [] => before
  | KeyDown k _ :: rest => held x rest (if decide (k = x) then true else before)
  | KeyUp k :: rest => held x rest (if decide (k = x) then false else before)
  | _ :: rest => held x rest before
  end.

(** ** The session-type test *)

(** The capital of a lower-case letter. *)
Definition capital_of (d : ascii) : ascii := ascii_of_nat (nat_of_ascii d - 32).

(** [s] spells [pattern], a word in lower case, up to the case of each
    letter. *)
Fixpoint spells (s pattern : string) : bool :=
  match s, pattern with
  | EmptyString, EmptyString => true
  | String c s', String d pattern' =>
      (Ascii.eqb c d || Ascii.eqb c (capital_of d)) && spells s' pattern'
  | _, _ => false
  end.

(** The letters of "wayland". *)
Definition wayland_letter (d : ascii) : bool :=
  existsb (Ascii.eqb d) ["w"; "a"; "y"; "l"; "n"; "d"]%char.

(** [env] with the session-type variable set to [v] (or unset). *)
Definition with_session_type (v : option string) (env : environment) : environment :=
  mkEnv (keyboard env) v (platform env) (available_geometry env).

(** ** Counting toggles of the overlay *)

(** Calls that show or hide the widget. *)
Definition is_visibility_call (e : effect) : bool :=
  match e with QtShow | QtHide => true | _ => false end.
Definition visibility_calls (t : trace) : nat :=
  length (List.filter is_visibility_call t).

Definition is_emit (e : effect) : bool :=
  match e with QtEmitToggleRequested => true | _ => false end.

(** How many times a callable will toggle the overlay once it runs:
    [initial_hint] toggles it and schedules one more toggle. *)
Definition slot_toggles (s : slot) : nat :=
  match s with
  | SlotInitialHint => 2
  | SlotToggleVisibility => 1
  end.

(** Toggles still to come from the pending timers and the queued calls. *)
Definition pending_toggles (a : App) : nat :=
  (list_sum (map (fun d => slot_toggles (snd d)) (timers a))
   + list_sum (map slot_toggles (posted a)))%nat.

(** When the startup hint ran: 300 ms after the loop started plus the
    lateness of the first timer expiration. *)
Fixpoint hint_ran_at (inputs : list input) : Z :=
  match inputs with
  | [] => 300
  | TimerDue late :: _ => 300 + Z.max 0 late
  | _ :: rest => hint_ran_at rest
  end.

(** The timers of the startup hint after [n] timer expirations, the hint
    having run at [ran] ms. *)
Definition hint_schedule (n : nat) (ran : Z) (a : App) : Prop :=
  Forall (fun s => s = SlotToggleVisibility) (posted a) /\
  match n with
  | O => timers a = [(300, SlotInitialHint)] /\ elapsed a = 0
  | S O => timers a = [(ran + 2000, SlotToggleVisibility)] /\ elapsed a = ran
  | S (S _) => timers a = [] /\ ran + 2000 <= elapsed a
  end.

(** Calls that configure the widget: layout, style sheet, width,
    attributes, window flags. *)
Definition is_widget_config (e : effect) : bool :=
  match e with
  | QtSetLayout _ | QtSetStyleSheet _
  | QtSetFixedWidth _ | QtSetAttribute _ _ | QtSetWindowFlags _ => true
  | _ => false
  end.

(** ** Concrete values used in the examples *)

Definition key_1 : key := from_char "1" (Some 49).
Definition key_1_keypad : key := from_char "1" (Some 97).
Definition key_a : key := from_char "a" (Some 65).
Definition pynput_ok : keyboard_t := Some PynputKeyboard.

Definition f1_0 : float := of_Z 1.
Definition f1_25 : float := div (of_Z 5) (of_Z 4).
Definition f1_5 : float := div (of_Z 3) (of_Z 2).
Definition f1_1 : float := div (of_Z 11) (of_Z 10).
Definition f2_0 : float := of_Z 2.

Definition screen_1080p : QRect := mkQRect 0 0 1920 1080.
Definition env_pynput : environment := mkEnv pynput_ok (Some "x11") "linux" screen_1080p.
Definition env_no_pynput : environment := mkEnv None (Some "x11") "linux" screen_1080p.

(** The listener while the toggle key, pressed at clock reading 1.0, is
    still held. *)
Definition holding_1 : KeyboardToggleListener :=
  run_state (_on_press pynput_ok f1_0 key_1) (KeyboardToggleListener__init__ pynput_ok).

(* ===================================================================== *)
(** * Properties *)
(* ===================================================================== *)

(** ** Floats *)

Lemma literal_0_4 : f0_4 = div (of_Z 4) (of_Z 10) /\ valid f0_4 = true.
Proof. split; vm_compute; reflexivity. Qed.

Lemma literal_0_1 : f0_1 = div (of_Z 1) (of_Z 10) /\ valid f0_1 = true.
Proof. split; vm_compute; reflexivity. Qed.

Lemma literal_0_5 : f0_5 = div (of_Z 1) (of_Z 2) /\ valid f0_5 = true.
Proof. split; vm_compute; reflexivity. Qed.

Lemma example_readings_valid :
  forallb valid [f0_0; f1_0; f1_1; f1_25; f1_5; f2_0] = true.
Proof. vm_compute. reflexivity. Qed.

Lemma SFcompare_antisym (a b : float) :
  SFcompare b a = option_map CompOpp (SFcompare a b).
Proof.
  destruct a as [sa|sa| |sa ma ea], b as [sb|sb| |sb mb eb]; simpl;
    try reflexivity;
    try (destruct sa; reflexivity); try (destruct sb; reflexivity);
    try (destruct sa, sb; reflexivity).
  destruct sa, sb; simpl; try reflexivity;
    rewrite (Z.compare_antisym ea eb);
    destruct (ea ?= eb)%Z; simpl; try reflexivity;
    pose proof (Pos.compare_cont_antisym ma mb Eq) as H; simpl in H;
    rewrite <- H; destruct (Pos.compare_cont Eq ma mb); reflexivity.
Qed.

(** [a < b] excludes [a >= b]. *)
Lemma lt_not_ge (a b : float) : lt a b = true -> ge a b = false.
Proof.
  unfold lt, ge, SFltb, SFleb. rewrite (SFcompare_antisym a b).
  destruct (SFcompare a b) as [[]|]; simpl; congruence.
Qed.

(** Subtracting the literal [0.0] changes nothing, NaN and signed zeros
    included. *)
Lemma sub_zero (x : float) : sub x f0_0 = x.
Proof. destruct x as [[]|[]| |s m e]; reflexivity. Qed.

(** ** Traces *)

Lemma toggles_app (t1 t2 : trace) : toggles (t1 ++ t2) = (toggles t1 + toggles t2)%nat.
Proof. unfold toggles. rewrite List.filter_app, List.length_app. reflexivity. Qed.

Lemma toggles_In (t : trace) : In OnToggle t <-> (0 < toggles t)%nat.
Proof.
  unfold toggles. induction t as [|e t IH]; simpl.
  - split; [tauto | lia].
  - destruct e; simpl; try (rewrite <- IH; split; [intros [H|H]; [discriminate | exact H] | tauto]).
    split; intros; [lia | tauto].
Qed.

(** ** The listener *)

Ltac run_listener :=
  cbv beta iota delta
    [_on_press _on_release with_lock when time_monotonic read_last_toggle write_last_toggle
     bind perform modify get ret run_state run_trace run_value fst snd].

(** [_on_press], case by case. *)
Lemma on_press_spec (kbd : keyboard_t) (now : float) (k : key) (self : KeyboardToggleListener) :
  _on_press kbd now k self =
  let self1 := set_pressed ({[ k ]} ∪ _pressed self) self in
  if _is_one_key kbd self1 then
    if ge (sub now (_last_toggle_monotonic self)) (_debounce_seconds self) then
      (tt, set_last_toggle now self1,
       [LockAcquire; Monotonic now; ReadLastToggle (_last_toggle_monotonic self);
        WriteLastToggle now; OnToggle; LockRelease])
    else (tt, self1,
          [LockAcquire; Monotonic now; ReadLastToggle (_last_toggle_monotonic self);
           LockRelease])
  else (tt, self1, [LockAcquire; LockRelease]).
Proof.
  run_listener. cbv zeta.
  destruct (_is_one_key kbd _); [|reflexivity].
  cbv beta iota. simpl _last_toggle_monotonic. simpl _debounce_seconds.
  destruct (ge _ _); reflexivity.
Qed.

Lemma on_release_spec (k : key) (self : KeyboardToggleListener) :
  _on_release k self =
  (tt, set_pressed (_pressed self ∖ {[ k ]}) self, [LockAcquire; LockRelease]).
Proof. reflexivity. Qed.

Lemma is_one_key_true (kbd : pynput_module) (self : KeyboardToggleListener) :
  _is_one_key (Some kbd) self = true <-> exists k, k ∈ _pressed self /\ is_char_one k = true.
Proof.
  unfold _is_one_key. rewrite existsb_exists. split.
  - intros (k & Hin & Hk). exists k. split; [|exact Hk].
    apply elem_of_elements, list_elem_of_In, Hin.
  - intros (k & Hin & Hk). exists k. split; [|exact Hk].
    apply list_elem_of_In, elem_of_elements, Hin.
Qed.

Lemma is_one_key_false (kbd : keyboard_t) (self : KeyboardToggleListener) :
  (forall k, k ∈ _pressed self -> is_char_one k = false) ->
  _is_one_key kbd self = false.
Proof.
  intros H. destruct kbd as [m|]; [|reflexivity].
  destruct (_is_one_key (Some m) self) eqn:E; [|reflexivity].
  apply is_one_key_true in E. destruct E as (k & Hin & Hk).
  rewrite (H k Hin) in Hk. discriminate.
Qed.

Lemma is_one_key_after_press (kbd : pynput_module) (k : key) (self : KeyboardToggleListener) :
  is_char_one k = true ->
  _is_one_key (Some kbd) (set_pressed ({[ k ]} ∪ _pressed self) self) = true.
Proof.
  intros Hk. apply is_one_key_true. exists k. split; [|exact Hk].
  simpl. set_solver.
Qed.

(** C9: key release is a pure removal.  [_on_release k] does not invoke the
    callback, leaves the last-toggle timestamp (and every other field but
    the pressed set) as it was, and the pressed set afterwards holds exactly
    the keys it held before other than [k]. *)
Theorem C9_release_pure_removal (k : key) (self : KeyboardToggleListener) :
  let self' := run_state (_on_release k) self in
  let t := run_trace (_on_release k) self in
  ~ In OnToggle t /\
  toggles t = 0%nat /\
  _last_toggle_monotonic self' = _last_toggle_monotonic self /\
  _debounce_seconds self' = _debounce_seconds self /\
  _listener self' = _listener self /\
  _pressed self' = _pressed self ∖ {[ k ]} /\
  (forall x, x ∈ _pressed self' <-> x ∈ _pressed self /\ x <> k).
Proof.
  unfold run_state, run_trace. rewrite on_release_spec. simpl.
  split; [intros [H|[H|[]]]; discriminate|].
  repeat (split; [reflexivity|]).
  intros x. rewrite elem_of_difference, elem_of_singleton. reflexivity.
Qed.

(** C1: the debounce invariant of [_on_press].  The whole invocation is one
    lock region: the trace is [LockAcquire], effects that are no lock
    operation, [LockRelease].  The callback is invoked at most once, only
    if [now - last >= 0.4], and then the region holds, in this order, the
    clock read, the read of the stored timestamp (the check), the write of
    [now] to the stored timestamp and the callback, and the stored
    timestamp is [now] afterwards; without a callback the timestamp is
    neither written nor changed. *)
Theorem C1_debounce_invariant
    (kbd : keyboard_t) (now : float) (k : key) (self : KeyboardToggleListener) :
  _debounce_seconds self = f0_4 ->
  let self' := run_state (_on_press kbd now k) self in
  let t := run_trace (_on_press kbd now k) self in
  let last := _last_toggle_monotonic self in
  exists inner : trace,
    t = LockAcquire :: inner ++ [LockRelease] /\
    ~ In LockAcquire inner /\ ~ In LockRelease inner /\
    (toggles inner <= 1)%nat /\
    (In OnToggle inner ->
       ge (sub now last) f0_4 = true /\
       _last_toggle_monotonic self' = now /\
       inner = [Monotonic now; ReadLastToggle last; WriteLastToggle now; OnToggle]) /\
    (~ In OnToggle inner ->
       _last_toggle_monotonic self' = last /\
       forall w, ~ In (WriteLastToggle w) inner).
Proof.
  intros Hd. unfold run_state, run_trace. rewrite on_press_spec. cbv zeta.
  rewrite Hd. simpl _last_toggle_monotonic.
  destruct (_is_one_key kbd _).
  - destruct (ge (sub now (_last_toggle_monotonic self)) f0_4) eqn:Hge; simpl.
    + exists [Monotonic now; ReadLastToggle (_last_toggle_monotonic self);
              WriteLastToggle now; OnToggle].
      split; [reflexivity|].
      split; [intros [H|[H|[H|[H|[]]]]]; discriminate|].
      split; [intros [H|[H|[H|[H|[]]]]]; discriminate|].
      split; [vm_compute; lia|].
      split; [intros _; repeat split|].
      intros H. exfalso. apply H. do 3 right. left. reflexivity.
    + exists [Monotonic now; ReadLastToggle (_last_toggle_monotonic self)].
      split; [reflexivity|].
      split; [intros [H|[H|[]]]; discriminate|].
      split; [intros [H|[H|[]]]; discriminate|].
      split; [vm_compute; lia|].
      split; [intros [H|[H|[]]]; discriminate|].
      intros _. split; [reflexivity|]. intros w [H|[H|[]]]; discriminate.
  - simpl. exists [].
    split; [reflexivity|]. split; [intros []|]. split; [intros []|].
    split; [vm_compute; lia|]. split; [intros []|].
    intros _. split; [reflexivity|]. intros w [].
Qed.

Lemma C1_debounce_invariant_witness :
  let self := KeyboardToggleListener__init__ pynput_ok in
  let self' := run_state (_on_press pynput_ok f0_5 key_1) self in
  let t := run_trace (_on_press pynput_ok f0_5 key_1) self in
  let last := _last_toggle_monotonic self in
  exists inner : trace,
    t = LockAcquire :: inner ++ [LockRelease] /\
    ~ In LockAcquire inner /\ ~ In LockRelease inner /\
    (toggles inner <= 1)%nat /\
    (In OnToggle inner ->
       ge (sub f0_5 last) f0_4 = true /\
       _last_toggle_monotonic self' = f0_5 /\
       inner = [Monotonic f0_5; ReadLastToggle last; WriteLastToggle f0_5; OnToggle]) /\
    (~ In OnToggle inner ->
       _last_toggle_monotonic self' = last /\
       forall w, ~ In (WriteLastToggle w) inner).
Proof.
  apply (C1_debounce_invariant pynput_ok f0_5 key_1 (KeyboardToggleListener__init__ pynput_ok)).
  reflexivity.
Defined.

(** The fields [_on_press] leaves alone. *)
Lemma on_press_frame (kbd : keyboard_t) (now : float) (k : key) (self : KeyboardToggleListener) :
  _debounce_seconds (run_state (_on_press kbd now k) self) = _debounce_seconds self /\
  _listener (run_state (_on_press kbd now k) self) = _listener self.
Proof.
  unfold run_state. rewrite on_press_spec. cbv zeta.
  destruct (_is_one_key kbd _); [destruct (ge _ _)|]; split; reflexivity.
Qed.

(** A press that leaves no toggle key in the pressed set is silent. *)
Lemma on_press_unrelated (kbd : keyboard_t) (now : float) (k : key) (self : KeyboardToggleListener) :
  is_char_one k = false ->
  (forall x, x ∈ _pressed self -> is_char_one x = false) ->
  _on_press kbd now k self =
    (tt, set_pressed ({[ k ]} ∪ _pressed self) self, [LockAcquire; LockRelease]).
Proof.
  intros Hk Hheld. rewrite on_press_spec. cbv zeta.
  rewrite is_one_key_false; [reflexivity|].
  simpl. intros x Hx. apply elem_of_union in Hx as [Hx|Hx].
  - apply elem_of_singleton in Hx. subst x. exact Hk.
  - apply Hheld, Hx.
Qed.

(** A press of a toggle key reads the clock and fires exactly when the
    debounce test passes. *)
Lemma on_press_toggle_key (kbd : pynput_module) (now : float) (k : key) (self : KeyboardToggleListener) :
  is_char_one k = true ->
  _on_press (Some kbd) now k self =
    let self1 := set_pressed ({[ k ]} ∪ _pressed self) self in
    if ge (sub now (_last_toggle_monotonic self)) (_debounce_seconds self) then
      (tt, set_last_toggle now self1,
       [LockAcquire; Monotonic now; ReadLastToggle (_last_toggle_monotonic self);
        WriteLastToggle now; OnToggle; LockRelease])
    else (tt, self1,
          [LockAcquire; Monotonic now; ReadLastToggle (_last_toggle_monotonic self);
           LockRelease]).
Proof.
  intros Hk. rewrite on_press_spec. cbv zeta.
  rewrite (is_one_key_after_press kbd k self Hk). reflexivity.
Qed.

(** C3 (amended): [_on_release k] removes [k] from the pressed set; and a
    press of a key other than the character key "1" does not invoke the
    callback provided no "1" key is held at that moment. *)
Theorem C3_release_removes_and_unrelated_press_silent
    (kbd : keyboard_t) (now : float) (k : key) (self : KeyboardToggleListener) :
  (k ∉ _pressed (run_state (_on_release k) self)) /\
  (is_char_one k = false ->
   (forall x, x ∈ _pressed self -> is_char_one x = false) ->
   ~ In OnToggle (run_trace (_on_press kbd now k) self) /\
   _last_toggle_monotonic (run_state (_on_press kbd now k) self)
     = _last_toggle_monotonic self).
Proof.
  split.
  - unfold run_state. rewrite on_release_spec. simpl.
    rewrite elem_of_difference, elem_of_singleton. intros [_ H]. apply H. reflexivity.
  - intros Hk Hheld. unfold run_state, run_trace.
    rewrite (on_press_unrelated kbd now k self Hk Hheld). simpl. split; [|reflexivity].
    intros [H|[H|[]]]; discriminate.
Qed.

Lemma C3_release_removes_and_unrelated_press_silent_witness :
  is_char_one key_a = false /\
  (forall x, x ∈ _pressed (KeyboardToggleListener__init__ pynput_ok) -> is_char_one x = false) /\
  ~ In OnToggle (run_trace (_on_press pynput_ok f2_0 key_a) (KeyboardToggleListener__init__ pynput_ok)).
Proof.
  assert (Hheld : forall x, x ∈ _pressed (KeyboardToggleListener__init__ pynput_ok) -> is_char_one x = false).
  { intros x Hx. simpl in Hx. set_solver. }
  split; [reflexivity|]. split; [exact Hheld|].
  apply (C3_release_removes_and_unrelated_press_silent
           pynput_ok f2_0 key_a (KeyboardToggleListener__init__ pynput_ok)); [reflexivity | exact Hheld].
Defined.

(** C3 as stated fails: with the "1" key held (pressed at 1.0 and not
    released), pressing the unrelated key "a" at 2.0 invokes the callback. *)
Lemma C3_counterexample :
  is_char_one key_a = false /\
  In OnToggle (run_trace (_on_press pynput_ok f2_0 key_a) holding_1).
Proof. split; [reflexivity|]. vm_compute. do 4 right. left. reflexivity. Qed.

Lemma listener_call_frame_debounce (kbd : keyboard_t) (i : input) (l : KeyboardToggleListener) :
  _debounce_seconds (run_state (hook_call kbd i) l) = _debounce_seconds l.
Proof.
  destruct i as [k now|k| |]; simpl; try reflexivity.
  apply on_press_frame.
Qed.

(** Events that involve no toggle key keep the listener silent and leave
    the last-toggle timestamp alone. *)
Lemma hook_calls_unrelated (kbd : keyboard_t) (evs : list input) (self : KeyboardToggleListener) :
  forallb (fun i => negb (about_char_one i)) evs = true ->
  (forall x, x ∈ _pressed self -> is_char_one x = false) ->
  let self' := snd (hook_calls kbd evs self) in
  Forall (fun t => ~ In OnToggle t) (fst (hook_calls kbd evs self)) /\
  _last_toggle_monotonic self' = _last_toggle_monotonic self /\
  _debounce_seconds self' = _debounce_seconds self /\
  (forall x, x ∈ _pressed self' -> is_char_one x = false).
Proof.
  revert self. induction evs as [|i evs IH]; intros self Hevs Hheld; simpl.
  - repeat split; [constructor | exact Hheld].
  - simpl in Hevs. apply andb_prop in Hevs as [Hi Hevs].
    apply negb_true_iff in Hi.
    assert (Hstep : exists self1 t,
               hook_call kbd i self = (tt, self1, t) /\
               ~ In OnToggle t /\
               _last_toggle_monotonic self1 = _last_toggle_monotonic self /\
               _debounce_seconds self1 = _debounce_seconds self /\
               (forall x, x ∈ _pressed self1 -> is_char_one x = false)).
    { destruct i as [k now|k| |]; simpl.
      - eexists _, _. split; [apply on_press_unrelated; [exact Hi | exact Hheld]|].
        simpl. repeat split.
        + intros [H|[H|[]]]; discriminate.
        + intros x Hx. apply elem_of_union in Hx as [Hx|Hx].
          * apply elem_of_singleton in Hx. subst x. exact Hi.
          * apply Hheld, Hx.
      - eexists _, _. split; [apply on_release_spec|].
        simpl. repeat split.
        + intros [H|[H|[]]]; discriminate.
        + intros x Hx. apply elem_of_difference in Hx as [Hx _]. apply Hheld, Hx.
      - exists self, []. repeat split; [intros [] | exact Hheld].
      - exists self, []. repeat split; [intros [] | exact Hheld]. }
    destruct Hstep as (self1 & t & Hcall & Ht & Hl & Hd & Hp).
    rewrite Hcall. specialize (IH self1 Hevs Hp).
    destruct (hook_calls kbd evs self1) as [ts self2]. simpl in *.
    destruct IH as (IH1 & IH2 & IH3 & IH4).
    repeat split.
    + constructor; assumption.
    + congruence.
    + congruence.
    + exact IH4.
Qed.

(** The debounce interval is 0.4 for the whole life of a listener. *)
Lemma debounce_constant (kbd : keyboard_t) (evs : list input) :
  _debounce_seconds (snd (hook_calls kbd evs (KeyboardToggleListener__init__ kbd))) = f0_4.
Proof.
  assert (H : forall l, _debounce_seconds (snd (hook_calls kbd evs l)) = _debounce_seconds l).
  { induction evs as [|i evs IH]; intros l; [reflexivity|]. simpl.
    pose proof (listener_call_frame_debounce kbd i l) as Hd.
    unfold run_state in Hd. destruct (hook_call kbd i l) as [[u l1] t]. simpl in Hd.
    specialize (IH l1). destruct (hook_calls kbd evs l1) as [ts l2]. simpl in *. congruence. }
  rewrite H. reflexivity.
Qed.

(** C10: no special case for the first toggle.  The timestamp starts at
    0.0 and events that involve no "1" key leave it there, so the first
    press of a toggle key, at clock reading [now], invokes the callback if
    and only if [now >= 0.4]. *)
Theorem C10_first_toggle_press_needs_clock_ge_0_4
    (kbd : pynput_module) (before : list input) (k : key) (now : float) :
  forallb (fun i => negb (about_char_one i)) before = true ->
  is_char_one k = true ->
  let self := snd (hook_calls (Some kbd) before (KeyboardToggleListener__init__ (Some kbd))) in
  _last_toggle_monotonic (KeyboardToggleListener__init__ (Some kbd)) = f0_0 /\
  _last_toggle_monotonic self = f0_0 /\
  Forall (fun t => ~ In OnToggle t) (fst (hook_calls (Some kbd) before (KeyboardToggleListener__init__ (Some kbd)))) /\
  (In OnToggle (run_trace (_on_press (Some kbd) now k) self) <-> ge now f0_4 = true) /\
  toggles (run_trace (_on_press (Some kbd) now k) self) = (if ge now f0_4 then 1 else 0)%nat.
Proof.
  intros Hbefore Hk self.
  destruct (hook_calls_unrelated (Some kbd) before (KeyboardToggleListener__init__ (Some kbd)) Hbefore)
    as (Hsilent & Hlast & Hdeb & _).
  { intros x Hx. simpl in Hx. apply not_elem_of_empty in Hx. destruct Hx. }
  fold self in Hlast, Hdeb. simpl in Hlast, Hdeb.
  split; [reflexivity|]. split; [exact Hlast|]. split; [exact Hsilent|].
  unfold run_trace. rewrite (on_press_toggle_key kbd now k self Hk). cbv zeta.
  rewrite Hlast, Hdeb, sub_zero.
  destruct (ge now f0_4); simpl; split; try reflexivity.
  - split; [reflexivity|]. intros _. do 4 right. left. reflexivity.
  - split; [|discriminate]. intros [H|[H|[H|[H|[]]]]]; discriminate.
Qed.

Lemma C10_first_toggle_press_needs_clock_ge_0_4_witness :
  (In OnToggle (run_trace (_on_press pynput_ok f0_1 key_1)
       (snd (hook_calls pynput_ok [KeyDown key_a f2_0; KeyUp key_a] (KeyboardToggleListener__init__ pynput_ok))))
   <-> ge f0_1 f0_4 = true) /\
  ge f0_1 f0_4 = false.
Proof.
  split; [|reflexivity].
  apply (C10_first_toggle_press_needs_clock_ge_0_4
           PynputKeyboard [KeyDown key_a f2_0; KeyUp key_a] key_1 f0_1); reflexivity.
Defined.

Lemma hook_calls_length (kbd : keyboard_t) (evs : list input) (self : KeyboardToggleListener) :
  length (fst (hook_calls kbd evs self)) = length evs.
Proof.
  revert self. induction evs as [|i evs IH]; intros self; simpl; [reflexivity|].
  destruct (hook_call kbd i self) as [[u self1] t].
  specialize (IH self1). destruct (hook_calls kbd evs self1) as [ts self2].
  simpl in *. congruence.
Qed.

(** Toggle-key presses, each at least 0.4 after the timestamp stored when
    it arrives: every one fires. *)
Lemma hook_calls_spaced (kbd : pynput_module) (evs : list input) (self : KeyboardToggleListener) :
  _debounce_seconds self = f0_4 ->
  forallb toggle_key_down evs = true ->
  chained apart (_last_toggle_monotonic self) (map reading evs) = true ->
  Forall (fun t => toggles t = 1%nat) (fst (hook_calls (Some kbd) evs self)).
Proof.
  revert self. induction evs as [|i evs IH]; intros self Hd Hevs Hsp; simpl.
  - constructor.
  - simpl in Hevs, Hsp.
    apply andb_prop in Hevs as [Hi Hevs]. apply andb_prop in Hsp as [Hnow Hsp].
    destruct i as [k now|k| |]; try discriminate. simpl in Hi, Hnow, Hsp |- *.
    rewrite (on_press_toggle_key kbd now k self Hi). cbv zeta.
    unfold apart in Hnow. rewrite Hd, Hnow.
    specialize (IH (set_last_toggle now (set_pressed ({[ k ]} ∪ _pressed self) self)) Hd Hevs Hsp).
    destruct (hook_calls (Some kbd) evs _) as [ts self2]. simpl in *.
    constructor; [reflexivity | exact IH].
Qed.

(** Toggle-key presses that all come less than 0.4 after the stored
    timestamp: none fires. *)
Lemma hook_calls_close (kbd : pynput_module) (evs : list input) (self : KeyboardToggleListener) :
  _debounce_seconds self = f0_4 ->
  forallb toggle_key_down evs = true ->
  forallb (fun t => close t (_last_toggle_monotonic self)) (map reading evs) = true ->
  toggles (concat (fst (hook_calls (Some kbd) evs self))) = 0%nat.
Proof.
  revert self. induction evs as [|i evs IH]; intros self Hd Hevs Hcl; simpl.
  - reflexivity.
  - simpl in Hevs, Hcl.
    apply andb_prop in Hevs as [Hi Hevs]. apply andb_prop in Hcl as [Hnow Hcl].
    destruct i as [k now|k| |]; try discriminate. simpl in Hi, Hnow, Hcl |- *.
    rewrite (on_press_toggle_key kbd now k self Hi). cbv zeta.
    unfold close in Hnow. apply lt_not_ge in Hnow. rewrite Hd, Hnow.
    specialize (IH (set_pressed ({[ k ]} ∪ _pressed self) self) Hd Hevs Hcl).
    destruct (hook_calls (Some kbd) evs _) as [ts self2].
    unfold toggles in *. simpl in *. exact IH.
Qed.

(** C2 (amended): toggle-key presses whose first timestamp is at least 0.4
    after the stored last-toggle timestamp (0.0 on a fresh listener) and
    whose consecutive timestamps are at least 0.4 apart each invoke the
    callback exactly once; and a burst of toggle-key presses whose first
    timestamp is at least 0.4 after the stored one and whose later
    timestamps are all less than 0.4 after the first invokes the callback
    exactly once in all, at its first event. *)
Theorem C2_spaced_presses_and_bursts
    (kbd : pynput_module) (evs : list input) (self : KeyboardToggleListener) :
  _debounce_seconds self = f0_4 ->
  forallb toggle_key_down evs = true ->
  let ts := map reading evs in
  let traces := fst (hook_calls (Some kbd) evs self) in
  length traces = length evs /\
  (chained apart (_last_toggle_monotonic self) ts = true ->
     Forall (fun t => toggles t = 1%nat) traces) /\
  (burst (_last_toggle_monotonic self) ts = true ->
     toggles (concat traces) = 1%nat /\
     exists t rest, traces = t :: rest /\ toggles t = 1%nat).
Proof.
  intros Hd Hevs ts traces. split; [apply hook_calls_length|].
  split; [apply hook_calls_spaced; assumption|].
  subst ts traces. intros Hb.
  destruct evs as [|i evs]; [discriminate|].
  simpl in Hevs, Hb. apply andb_prop in Hevs as [Hi Hevs].
  apply andb_prop in Hb as [Hnow Hcl].
  destruct i as [k now|k| |]; try discriminate. simpl in Hi, Hnow, Hcl |- *.
  rewrite (on_press_toggle_key kbd now k self Hi). cbv zeta.
  unfold apart in Hnow. rewrite Hd, Hnow.
  pose proof (hook_calls_close kbd evs
                (set_last_toggle now (set_pressed ({[ k ]} ∪ _pressed self) self))
                Hd Hevs Hcl) as Hrest.
  destruct (hook_calls (Some kbd) evs _) as [tr self2].
  split.
  - unfold toggles in *. simpl in *. rewrite Hrest. reflexivity.
  - eexists _, _. split; reflexivity.
Qed.

Lemma C2_spaced_presses_and_bursts_witness :
  let evs := [KeyDown key_1 f1_0; KeyDown key_1 f1_5; KeyDown key_1 f2_0] in
  let traces := fst (hook_calls pynput_ok evs (KeyboardToggleListener__init__ pynput_ok)) in
  _debounce_seconds (KeyboardToggleListener__init__ pynput_ok) = f0_4 /\
  forallb toggle_key_down evs = true /\
  chained apart f0_0 (map reading evs) = true /\
  Forall (fun t => toggles t = 1%nat) traces.
Proof.
  cbv zeta. repeat (split; [reflexivity|]).
  apply (C2_spaced_presses_and_bursts PynputKeyboard
           [KeyDown key_1 f1_0; KeyDown key_1 f1_5; KeyDown key_1 f2_0]
           (KeyboardToggleListener__init__ pynput_ok)); reflexivity.
Defined.

(** C2 as stated fails on both counts.  Presses at 0.0 and 0.5 are 0.4
    apart, yet the first one invokes nothing; and presses at 1.0, 1.25 and
    1.5 are each less than 0.4 after the one before, yet the callback is
    invoked twice. *)
Lemma C2_counterexample :
  (consecutive apart [f0_0; f0_5] = true /\
   map toggles (fst (hook_calls pynput_ok [KeyDown key_1 f0_0; KeyDown key_1 f0_5]
                       (KeyboardToggleListener__init__ pynput_ok))) = [0; 1]%nat) /\
  (consecutive close [f1_0; f1_25; f1_5] = true /\
   toggles (concat (fst (hook_calls pynput_ok
                           [KeyDown key_1 f1_0; KeyDown key_1 f1_25; KeyDown key_1 f1_5]
                           (KeyboardToggleListener__init__ pynput_ok)))) = 2%nat).
Proof. repeat split; vm_compute; reflexivity. Qed.

(** ** The monad *)

Lemma bind_run {S A B} (m : M S A) (k : A -> M S B) (s : S) :
  bind m k s =
  (run_value (k (run_value m s)) (run_state m s),
   run_state (k (run_value m s)) (run_state m s),
   run_trace m s ++ run_trace (k (run_value m s)) (run_state m s)).
Proof.
  unfold bind, run_value, run_state, run_trace.
  destruct (m s) as [[a s1] t1]. simpl.
  destruct (k a s1) as [[b s2] t2]. reflexivity.
Qed.

Lemma run_state_bind {S A B} (m : M S A) (k : A -> M S B) (s : S) :
  run_state (bind m k) s = run_state (k (run_value m s)) (run_state m s).
Proof. unfold run_state at 1. rewrite bind_run. reflexivity. Qed.

Lemma run_trace_bind {S A B} (m : M S A) (k : A -> M S B) (s : S) :
  run_trace (bind m k) s = run_trace m s ++ run_trace (k (run_value m s)) (run_state m s).
Proof. unfold run_trace at 1. rewrite bind_run. reflexivity. Qed.

Lemma run_value_bind {S A B} (m : M S A) (k : A -> M S B) (s : S) :
  run_value (bind m k) s = run_value (k (run_value m s)) (run_state m s).
Proof. unfold run_value at 1. rewrite bind_run. reflexivity. Qed.

(** ** The overlay *)

Lemma toggle_visibility_spec (self : RulesOverlay) :
  toggle_visibility self =
  if _is_visible self then
    (tt, mkOverlay false false (widget_pos self) (widget_flags self), [QtHide])
  else
    (tt, mkOverlay true true (widget_pos self) (widget_flags self),
     [QtShow; QtRaise; QtActivateWindow]).
Proof. destruct self as [[] w p fl]; reflexivity. Qed.

(** C6: two calls of [toggle_visibility] in succession give back the
    visibility the overlay started with: [_is_visible] is restored, the
    widget is shown or hidden accordingly, and an overlay whose widget
    agreed with [_is_visible] (as it does from construction on) is back in
    the very same state.  One call alone flips [_is_visible]. *)
Theorem C6_toggle_twice_restores_visibility (self : RulesOverlay) :
  let once := run_state toggle_visibility self in
  let twice := run_state (toggle_visibility ;; toggle_visibility) self in
  _is_visible once = negb (_is_visible self) /\
  _is_visible twice = _is_visible self /\
  widget_visible twice = _is_visible self /\
  (widget_visible self = _is_visible self -> twice = self).
Proof.
  cbv zeta. rewrite run_state_bind. unfold run_state, run_value.
  rewrite !toggle_visibility_spec.
  destruct self as [[] w p fl]; simpl; repeat split; intros ->; reflexivity.
Qed.

Lemma C6_toggle_twice_restores_visibility_witness :
  let self := run_state (RulesOverlay__init__ "linux" screen_1080p) QWidget__init__ in
  widget_visible self = _is_visible self /\
  run_state (toggle_visibility ;; toggle_visibility) self = self.
Proof.
  cbv zeta. split; [reflexivity|].
  apply (C6_toggle_twice_restores_visibility
           (run_state (RulesOverlay__init__ "linux" screen_1080p) QWidget__init__)).
  reflexivity.
Defined.

(** ** The application *)

Lemma bind_get {S B} (k : S -> M S B) (s : S) : bind get k s = k s s.
Proof. unfold bind, get. destruct (k s s) as [[b s2] t2]. reflexivity. Qed.

Lemma bind_modify {S B} (f : S -> S) (k : unit -> M S B) (s : S) :
  bind (modify f) k s = k tt (f s).
Proof. unfold bind, modify. destruct (k tt (f s)) as [[b s2] t2]. reflexivity. Qed.

Lemma set_posted_id (a : App) : set_posted (posted a) a = a.
Proof. destruct a; reflexivity. Qed.

Lemma toggles_with_callback (t : trace) : toggles (with_callback t) = toggles t.
Proof.
  unfold toggles. induction t as [|e t IH]; [reflexivity|].
  destruct e; simpl; rewrite ?IH; reflexivity.
Qed.

Lemma loop_effects_with_callback (t : trace) :
  forallb is_loop_effect t = true -> forallb is_loop_effect (with_callback t) = true.
Proof.
  induction t as [|e t IH]; [reflexivity|]. simpl. intros H.
  apply andb_prop in H as [He Ht]. destruct e; simpl in *; try discriminate; auto.
Qed.

(** Replaying a listener trace queues one slot call per callback
    invocation and touches nothing else. *)
Lemma replay_spec (t : trace) (a : App) :
  replay t a =
  (tt, set_posted (posted a ++ repeat SlotToggleVisibility (toggles t)) a, with_callback t).
Proof.
  revert a. induction t as [|e t IH]; intros a.
  - simpl. rewrite app_nil_r, set_posted_id. reflexivity.
  - assert (Hother : bind (perform e) (fun _ => replay t) a =
                     (tt, set_posted (posted a ++ repeat SlotToggleVisibility (toggles t)) a,
                      e :: with_callback t)).
    { unfold bind, perform. rewrite IH. reflexivity. }
    destruct e; try exact Hother.
    simpl. unfold bind at 1, perform at 1. unfold bind at 1.
    unfold on_toggle, emit_toggleRequested. unfold bind at 1, perform at 1, modify.
    rewrite IH. simpl. rewrite <- app_assoc. reflexivity.
Qed.

Lemma on_listener_spec {A} (m : M KeyboardToggleListener A) (a : App) :
  on_listener m a =
  (run_value m (listener a),
   set_posted (posted a ++ repeat SlotToggleVisibility (toggles (run_trace m (listener a))))
     (set_app_listener (run_state m (listener a)) a),
   with_callback (run_trace m (listener a))).
Proof.
  unfold on_listener, run_value, run_state, run_trace.
  destruct (m (listener a)) as [[r l] t]. rewrite replay_spec. reflexivity.
Qed.

Lemma call_spec (s : slot) (a : App) :
  call s a =
  let o := run_state toggle_visibility (overlay a) in
  let t := run_trace toggle_visibility (overlay a) in
  match s with
  | SlotInitialHint =>
      (tt, set_timers (timers a ++ [(elapsed a + 2000, SlotToggleVisibility)]) (set_overlay o a),
       t ++ [QtSingleShot 2000 SlotToggleVisibility])
  | SlotToggleVisibility => (tt, set_overlay o a, t)
  end.
Proof.
  unfold run_state, run_trace.
  destruct s; simpl; unfold initial_hint, on_overlay, singleShot, bind, perform, modify;
    destruct (toggle_visibility (overlay a)) as [[[] o] t]; simpl;
    rewrite ?app_nil_r; reflexivity.
Qed.

Lemma step_spec (kbd : keyboard_t) (i : input) (a : App) :
  step kbd i a =
  match i with
  | KeyDown k now =>
      if hook_running (listener a) then on_listener (_on_press kbd now k) a else (tt, a, [])
  | KeyUp k =>
      if hook_running (listener a) then on_listener (_on_release k) a else (tt, a, [])
  | TimerDue late =>
      match pop_earliest (timers a) with
      | None => (tt, a, [])
      | Some ((due, s), rest) =>
          call s (set_elapsed (Z.max (elapsed a) due + Z.max 0 late) (set_timers rest a))
      end
  | Dispatch =>
      match posted a with
      | [] => (tt, a, [])
      | s :: rest => call s (set_posted rest a)
      end
  end.
Proof.
  unfold step. rewrite bind_get. destruct i as [k now|k| |].
  - destruct (hook_running (listener a)); reflexivity.
  - destruct (hook_running (listener a)); reflexivity.
  - destruct (pop_earliest (timers a)) as [[[due s] rest]|]; [|reflexivity].
    rewrite bind_modify. reflexivity.
  - destruct (posted a) as [|s rest]; [reflexivity|].
    rewrite bind_modify. reflexivity.
Qed.

Lemma toggle_visibility_frame (self : RulesOverlay) :
  widget_pos (run_state toggle_visibility self) = widget_pos self /\
  widget_flags (run_state toggle_visibility self) = widget_flags self /\
  forallb is_loop_effect (run_trace toggle_visibility self) = true.
Proof.
  unfold run_state, run_trace. rewrite toggle_visibility_spec.
  destruct (_is_visible self); repeat split.
Qed.

Lemma listener_call_frame (kbd : keyboard_t) (i : input) (l : KeyboardToggleListener) :
  _listener (run_state (hook_call kbd i) l) = _listener l /\
  _debounce_seconds (run_state (hook_call kbd i) l) = _debounce_seconds l /\
  forallb is_loop_effect (run_trace (hook_call kbd i) l) = true.
Proof.
  destruct i as [k now|k| |]; simpl; try (repeat split; reflexivity).
  unfold run_state, run_trace. rewrite on_press_spec. cbv zeta.
  destruct (_is_one_key kbd _); [destruct (ge _ _)|]; repeat split.
Qed.

(** What a step of the loop leaves alone. *)
Lemma step_frame (kbd : keyboard_t) (i : input) (a : App) :
  widget_pos (overlay (run_state (step kbd i) a)) = widget_pos (overlay a) /\
  _listener (listener (run_state (step kbd i) a)) = _listener (listener a) /\
  forallb is_loop_effect (run_trace (step kbd i) a) = true.
Proof.
  unfold run_state, run_trace. rewrite step_spec.
  destruct i as [k now|k| |].
  - destruct (hook_running (listener a)); [|repeat split].
    rewrite on_listener_spec. simpl.
    destruct (listener_call_frame kbd (KeyDown k now) (listener a)) as (H1 & _ & H3).
    repeat split; try exact H1; try (apply loop_effects_with_callback, H3).
  - destruct (hook_running (listener a)); [|repeat split].
    rewrite on_listener_spec. simpl.
    destruct (listener_call_frame kbd (KeyUp k) (listener a)) as (H1 & _ & H3).
    repeat split; try exact H1; try (apply loop_effects_with_callback, H3).
  - destruct (pop_earliest (timers a)) as [[[due s] rest]|]; [|repeat split].
    rewrite call_spec. cbv zeta.
    destruct (toggle_visibility_frame
                (overlay (set_elapsed (Z.max (elapsed a) due) (set_timers rest a))))
      as (Hp & _ & Ht).
    destruct s; simpl in *; repeat split; try exact Hp; try exact Ht.
    rewrite forallb_app, Ht. reflexivity.
  - destruct (posted a) as [|s rest]; [repeat split|].
    rewrite call_spec. cbv zeta.
    destruct (toggle_visibility_frame (overlay (set_posted rest a))) as (Hp & _ & Ht).
    destruct s; simpl in *; repeat split; try exact Hp; try exact Ht.
    rewrite forallb_app, Ht. reflexivity.
Qed.

Lemma run_loop_cons (kbd : keyboard_t) (i : input) (rest : list input) (a : App) :
  run_state (run_loop kbd (i :: rest)) a = run_state (run_loop kbd rest) (run_state (step kbd i) a) /\
  run_trace (run_loop kbd (i :: rest)) a =
    run_trace (step kbd i) a ++ run_trace (run_loop kbd rest) (run_state (step kbd i) a).
Proof.
  change (run_loop kbd (i :: rest)) with (bind (step kbd i) (fun _ => run_loop kbd rest)).
  rewrite run_state_bind, run_trace_bind. split; reflexivity.
Qed.

Lemma run_loop_frame (kbd : keyboard_t) (inputs : list input) (a : App) :
  widget_pos (overlay (run_state (run_loop kbd inputs) a)) = widget_pos (overlay a) /\
  _listener (listener (run_state (run_loop kbd inputs) a)) = _listener (listener a) /\
  forallb is_loop_effect (run_trace (run_loop kbd inputs) a) = true.
Proof.
  revert a. induction inputs as [|i rest IH]; intros a.
  - repeat split.
  - destruct (run_loop_cons kbd i rest a) as [-> ->].
    destruct (step_frame kbd i a) as (S1 & S2 & S3).
    destruct (IH (run_state (step kbd i) a)) as (L1 & L2 & L3).
    rewrite forallb_app, S3, L3. repeat split; congruence.
Qed.

Ltac run_setup :=
  cbv beta iota zeta delta
    [main_setup _warn_if_wayland when bind perform modify get ret on_overlay on_listener
     RulesOverlay__init__ _build_ui _apply_window_flags setWindowFlags _position_window
     move hide start replay singleShot App__init__ KeyboardToggleListener__init__ QWidget__init__
     run_state run_trace run_value fst snd app
     keyboard XDG_SESSION_TYPE platform available_geometry
     overlay listener timers posted elapsed
     set_overlay set_app_listener set_timers set_posted set_elapsed
     _is_visible widget_visible widget_pos widget_flags
     set_is_visible set_widget_visible set_widget_pos set_widget_flags
     _pressed _last_toggle_monotonic _debounce_seconds _listener
     set_pressed set_last_toggle set_listener started stopped
     on_toggle emit_toggleRequested].

Lemma forallb_not_In (f : effect -> bool) (e : effect) (t : trace) :
  forallb f t = true -> f e = false -> ~ In e t.
Proof.
  intros Ht He Hin. rewrite forallb_forall in Ht. rewrite (Ht e Hin) in He. discriminate.
Qed.

Lemma forallb_filter_nil (f g : effect -> bool) (t : trace) :
  (forall e, f e = true -> g e = false) ->
  forallb f t = true -> List.filter g t = [].
Proof.
  intros Hfg. induction t as [|e t IH]; [reflexivity|]. simpl. intros H.
  apply andb_prop in H as [He Ht]. rewrite (Hfg e He). apply IH, Ht.
Qed.

Lemma loop_effect_not_move (e : effect) : is_loop_effect e = true -> is_QtMove e = false.
Proof. destruct e; simpl; congruence. Qed.

Lemma main_setup_spec (env : environment) :
  let a0 := run_state (main_setup env) (App__init__ env) in
  let t0 := run_trace (main_setup env) (App__init__ env) in
  let geo := available_geometry env in
  _is_visible (overlay a0) = false /\
  widget_visible (overlay a0) = false /\
  widget_pos (overlay a0) = (rect_left geo + 24, rect_top geo + 24) /\
  timers a0 = [(300, SlotInitialHint)] /\
  posted a0 = [] /\
  listener a0 = match keyboard env with
                | None => KeyboardToggleListener__init__ None
                | Some m => set_listener (Some (mkPynputListener true false))
                              (KeyboardToggleListener__init__ (Some m))
                end /\
  List.filter is_QtMove t0 = [QtMove (rect_left geo + 24) (rect_top geo + 24)] /\
  forallb is_setup_effect t0 = true /\
  (keyboard env = None ->
     In (Print "[overlay] pynput not available. Install requirements or switch to X11.") t0 /\
     List.filter is_hook_effect t0 = []).
Proof.
  destruct env as [kbd xdg plat geo]. run_setup.
  destruct (String.eqb _ "wayland"); destruct (String.prefix "linux" plat);
    destruct kbd; run_setup;
    (repeat (split; [reflexivity|])); (try discriminate); intros _;
    (split; [simpl; tauto | reflexivity]).
Qed.

Lemma on_listener_stop_spec (a : App) :
  on_listener stop a =
  match _listener (listener a) with
  | Some h =>
      (tt, set_app_listener
             (set_listener (Some (mkPynputListener (started h) true)) (listener a)) a,
       [ListenerStop])
  | None => (tt, a, [])
  end.
Proof.
  rewrite on_listener_spec. unfold run_value, run_state, run_trace, stop.
  rewrite bind_get. destruct a as [o l ts q el]. simpl.
  destruct (_listener l) as [h|]; simpl; rewrite app_nil_r; [reflexivity|].
  destruct l; reflexivity.
Qed.

Lemma app_after_eq (env : environment) (inputs : list input) :
  app_after env inputs =
  run_state (run_loop (keyboard env) inputs) (run_state (main_setup env) (App__init__ env)).
Proof. unfold app_after. rewrite run_state_bind. reflexivity. Qed.

(** [main] in three parts: setup, loop, [finally]. *)
Lemma main_spec (env : environment) (inputs : list input) (exit : loop_exit) :
  main env inputs exit =
  (exit_result exit,
   run_state (on_listener stop) (app_after env inputs),
   run_trace (main_setup env) (App__init__ env)
   ++ run_trace (run_loop (keyboard env) inputs) (run_state (main_setup env) (App__init__ env))
   ++ run_trace (on_listener stop) (app_after env inputs)).
Proof.
  unfold main, main_body, try_finally, app_exec, app_after, exit_result.
  unfold run_state, run_trace, bind, ret.
  destruct (main_setup env (App__init__ env)) as [[u0 a0] t0].
  cbv beta iota delta [fst snd].
  destruct (run_loop (keyboard env) inputs a0) as [[u1 a1] t1].
  cbv beta iota delta [fst snd].
  destruct (on_listener stop a1) as [[u2 a2] t2].
  rewrite !app_nil_r. reflexivity.
Qed.

Lemma main_projections (env : environment) (inputs : list input) (exit : loop_exit) :
  main_result env inputs exit = exit_result exit /\
  main_app env inputs exit = run_state (on_listener stop) (app_after env inputs) /\
  main_trace env inputs exit =
    run_trace (main_setup env) (App__init__ env)
    ++ run_trace (run_loop (keyboard env) inputs) (run_state (main_setup env) (App__init__ env))
    ++ run_trace (on_listener stop) (app_after env inputs).
Proof.
  unfold main_result, main_app, main_trace. rewrite main_spec. repeat split.
Qed.

Lemma stop_frame (a : App) :
  overlay (run_state (on_listener stop) a) = overlay a /\
  List.filter is_QtMove (run_trace (on_listener stop) a) = [] /\
  List.filter is_hook_effect (run_trace (on_listener stop) a) = [] /\
  toggles (run_trace (on_listener stop) a) = 0%nat.
Proof.
  unfold run_state, run_trace. rewrite on_listener_stop_spec.
  destruct (_listener (listener a)); repeat split.
Qed.

(** C7: the position is computed once, at construction, as the top-left
    corner of the primary screen's available geometry plus 24 on each axis:
    [__init__] makes exactly one [move], to that point; [toggle_visibility]
    neither moves the widget nor changes its position; and over a whole
    run of [main], whatever the inputs and however the loop ends, the
    trace holds that single [move] and the position stays that point, both
    while the loop runs and when [main] is done. *)
Theorem C7_position_fixed_at_construction
    (env : environment) (inputs : list input) (exit : loop_exit) :
  let geo := available_geometry env in
  let x := rect_left geo + 24 in
  let y := rect_top geo + 24 in
  let built := RulesOverlay__init__ (platform env) geo in
  List.filter is_QtMove (run_trace built QWidget__init__) = [QtMove x y] /\
  widget_pos (run_state built QWidget__init__) = (x, y) /\
  (forall self : RulesOverlay,
     widget_pos (run_state toggle_visibility self) = widget_pos self /\
     List.filter is_QtMove (run_trace toggle_visibility self) = []) /\
  widget_pos (overlay (app_after env inputs)) = (x, y) /\
  widget_pos (overlay (main_app env inputs exit)) = (x, y) /\
  List.filter is_QtMove (main_trace env inputs exit) = [QtMove x y].
Proof.
  cbv zeta.
  destruct (main_setup_spec env) as (_ & _ & Hpos & _ & _ & _ & Hmove & _).
  destruct (run_loop_frame (keyboard env) inputs (run_state (main_setup env) (App__init__ env)))
    as (Lpos & _ & Leff).
  destruct (main_projections env inputs exit) as (_ & Happ & Htrace).
  destruct (stop_frame (app_after env inputs)) as (Sov & Smove & _).
  assert (Hafter : widget_pos (overlay (app_after env inputs))
                   = (rect_left (available_geometry env) + 24,
                      rect_top (available_geometry env) + 24)).
  { rewrite app_after_eq, Lpos. exact Hpos. }
  split; [|split; [|split; [|split; [|split]]]].
  - destruct env as [kbd xdg plat geo]. run_setup.
    destruct (String.prefix "linux" plat); reflexivity.
  - destruct env as [kbd xdg plat geo]. run_setup.
    destruct (String.prefix "linux" plat); reflexivity.
  - intros self. destruct (toggle_visibility_frame self) as (Tpos & _ & Teff).
    split; [exact Tpos|].
    apply (forallb_filter_nil is_loop_effect); [apply loop_effect_not_move | exact Teff].
  - exact Hafter.
  - rewrite Happ, Sov. exact Hafter.
  - rewrite Htrace, !List.filter_app, Hmove, Smove.
    rewrite (forallb_filter_nil is_loop_effect is_QtMove _ loop_effect_not_move Leff).
    reflexivity.
Qed.

(** C8: [main] hands back what the event loop returned, and however the
    loop ends (return or exception) [stop] runs after it and before [main]
    is left: the result is the loop's, the final state is that of [stop]
    run on the state at loop exit, the trace is everything up to loop exit
    (which holds no [ListenerStop]) followed by the effects of [stop], and
    with pynput present those effects are the one call that stops the hook
    thread. *)
Theorem C8_exit_code_and_listener_stopped
    (env : environment) (inputs : list input) (exit : loop_exit) :
  let at_exit := app_after env inputs in
  let before := run_trace (main_setup env ;; run_loop (keyboard env) inputs) (App__init__ env) in
  main_result env inputs exit = exit_result exit /\
  (forall rc, exit = LoopReturn rc -> main_result env inputs exit = Returned rc) /\
  (forall exn, exit = LoopRaise exn -> main_result env inputs exit = Raised exn) /\
  main_app env inputs exit = run_state (on_listener stop) at_exit /\
  main_trace env inputs exit = before ++ run_trace (on_listener stop) at_exit /\
  ~ In ListenerStop before /\
  (forall m, keyboard env = Some m ->
     run_trace (on_listener stop) at_exit = [ListenerStop] /\
     hook_running (listener (main_app env inputs exit)) = false).
Proof.
  cbv zeta.
  destruct (main_projections env inputs exit) as (Hres & Happ & Htrace).
  destruct (main_setup_spec env) as (_ & _ & _ & _ & _ & Hlis & _ & Hsetup & _).
  destruct (run_loop_frame (keyboard env) inputs (run_state (main_setup env) (App__init__ env)))
    as (_ & Llis & Leff).
  split; [exact Hres|].
  split; [intros rc ->; exact Hres|].
  split; [intros exn ->; exact Hres|].
  split; [exact Happ|].
  split; [rewrite Htrace, run_trace_bind, <- app_assoc; reflexivity|].
  split.
  - rewrite run_trace_bind. intros Hin. apply in_app_or in Hin as [Hin|Hin].
    + revert Hin. apply (forallb_not_In is_setup_effect); [exact Hsetup | reflexivity].
    + revert Hin. apply (forallb_not_In is_loop_effect); [exact Leff | reflexivity].
  - intros m Hm. rewrite Happ. unfold run_trace, run_state.
    rewrite on_listener_stop_spec.
    rewrite app_after_eq, Llis, Hlis, Hm. simpl. split; [reflexivity|].
    reflexivity.
Qed.

Lemma C8_exit_code_and_listener_stopped_witness :
  keyboard env_pynput = Some PynputKeyboard /\
  main_result env_pynput [TimerDue 0; KeyDown key_1 f1_0] (LoopRaise "KeyboardInterrupt")
    = Raised "KeyboardInterrupt" /\
  run_trace (on_listener stop) (app_after env_pynput [TimerDue 0; KeyDown key_1 f1_0])
    = [ListenerStop] /\
  hook_running (listener (main_app env_pynput [TimerDue 0; KeyDown key_1 f1_0]
                            (LoopRaise "KeyboardInterrupt"))) = false.
Proof.
  pose proof (C8_exit_code_and_listener_stopped env_pynput [TimerDue 0; KeyDown key_1 f1_0]
                (LoopRaise "KeyboardInterrupt")) as (_ & _ & Hexn & _ & _ & _ & Hstop).
  split; [reflexivity|].
  split; [apply Hexn; reflexivity|].
  apply (Hstop PynputKeyboard). reflexivity.
Defined.

Lemma timer_expirations_cons (i : input) (rest : list input) :
  timer_expirations (i :: rest)
  = ((if is_TimerDue i then 1 else 0) + timer_expirations rest)%nat.
Proof. unfold timer_expirations. simpl. destruct (is_TimerDue i); reflexivity. Qed.

Lemma no_hook_effect_no_toggle (t : trace) :
  List.filter is_hook_effect t = [] -> toggles t = 0%nat.
Proof.
  unfold toggles. induction t as [|e t IH]; [reflexivity|].
  simpl. destruct e; simpl; try discriminate; exact IH.
Qed.

Lemma hint_phase_visible (n : nat) (a : App) :
  hint_phase n a ->
  _is_visible (overlay a) = (n =? 1)%nat /\ widget_visible (overlay a) = (n =? 1)%nat.
Proof.
  intros (_ & _ & H). destruct n as [|[|n]]; simpl.
  - destruct H as (_ & _ & -> & ->). split; reflexivity.
  - destruct H as (_ & _ & -> & ->). split; reflexivity.
  - destruct H as (_ & -> & ->). split; reflexivity.
Qed.

(** Without a hook thread a step only ever advances the startup hint. *)
Lemma step_hint_phase (kbd : keyboard_t) (i : input) (n : nat) (a : App) :
  hint_phase n a ->
  hint_phase ((if is_TimerDue i then 1 else 0) + n) (run_state (step kbd i) a) /\
  hint_effects n ++ run_trace (step kbd i) a
    = hint_effects ((if is_TimerDue i then 1 else 0) + n) /\
  listener (run_state (step kbd i) a) = listener a.
Proof.
  intros (Hq & Hh & Hn). unfold run_state, run_trace. rewrite step_spec.
  destruct i as [k now|k|late|]; cbn [is_TimerDue Nat.add].
  - rewrite Hh. cbn [fst snd]. rewrite app_nil_r. repeat split; assumption.
  - rewrite Hh. cbn [fst snd]. rewrite app_nil_r. repeat split; assumption.
  - destruct a as [[vis wvis pos fl] l ts q el]. cbn [timers posted elapsed overlay listener
      _is_visible widget_visible] in *. subst q.
    destruct n as [|[|n]].
    + destruct Hn as (-> & -> & -> & ->). cbn [pop_earliest]. rewrite call_spec.
      unfold run_state, run_trace. rewrite toggle_visibility_spec.
      cbn. repeat split; try assumption. cbn [elapsed set_timers set_overlay set_elapsed]. lia.
    + destruct Hn as (-> & Hel & -> & ->). cbn [pop_earliest]. rewrite call_spec.
      unfold run_state, run_trace. rewrite toggle_visibility_spec.
      cbn. repeat split; assumption.
    + destruct Hn as (-> & -> & ->). cbn. repeat split; assumption.
  - rewrite Hq. cbn [fst snd]. rewrite app_nil_r. repeat split; assumption.
Qed.

Lemma run_loop_hint_phase (kbd : keyboard_t) (inputs : list input) (n : nat) (a : App) :
  hint_phase n a ->
  hint_phase (timer_expirations inputs + n) (run_state (run_loop kbd inputs) a) /\
  hint_effects n ++ run_trace (run_loop kbd inputs) a
    = hint_effects (timer_expirations inputs + n) /\
  listener (run_state (run_loop kbd inputs) a) = listener a.
Proof.
  revert n a. induction inputs as [|i rest IH]; intros n a Hn.
  - split; [exact Hn | split; [apply app_nil_r | reflexivity]].
  - destruct (run_loop_cons kbd i rest a) as [-> ->].
    destruct (step_hint_phase kbd i n a Hn) as (S1 & S2 & S3).
    destruct (IH _ _ S1) as (L1 & L2 & L3).
    rewrite timer_expirations_cons, app_assoc, S2, L2, L3, S3.
    replace ((if is_TimerDue i then 1 else 0) + timer_expirations rest + n)%nat
      with (timer_expirations rest + ((if is_TimerDue i then 1 else 0) + n))%nat by lia.
    split; [exact L1 | split; reflexivity].
Qed.

(** C5 (amended): when pynput failed to import, [start] prints the warning
    and returns, [main] runs on and ends with the loop's own outcome, no
    hook thread is ever started and no callback or toggle request ever
    occurs (the toggle is inert).  The only single shot of the setup is
    the startup hint, 300 ms after startup; after it the whole trace of
    [main] is: nothing until the first timer expiration; then the hint's
    show, raise and activate and the single shot of 2000 ms for the hide;
    then, at the second expiration, the hide, and nothing more.  So the
    overlay is visible exactly between the first and the second timer
    expiration, the second being due 2000 ms after the hint ran, and is
    hidden before and ever after. *)
Theorem C5_without_pynput_only_the_hint_shows
    (env : environment) (inputs : list input) (exit : loop_exit) :
  keyboard env = None ->
  let n := timer_expirations inputs in
  let warning := Print "[overlay] pynput not available. Install requirements or switch to X11." in
  let setup := run_trace (main_setup env) (App__init__ env) in
  start (KeyboardToggleListener__init__ (keyboard env)) = (tt, KeyboardToggleListener__init__ (keyboard env), [warning]) /\
  main_result env inputs exit = exit_result exit /\
  In warning (main_trace env inputs exit) /\
  List.filter is_hook_effect (main_trace env inputs exit) = [] /\
  toggles (main_trace env inputs exit) = 0%nat /\
  List.filter is_single_shot setup = [QtSingleShot 300 SlotInitialHint] /\
  ~ In QtShow setup /\
  main_trace env inputs exit = setup ++ hint_effects n /\
  hint_phase n (app_after env inputs) /\
  _is_visible (overlay (main_app env inputs exit)) = (n =? 1)%nat /\
  widget_visible (overlay (main_app env inputs exit)) = (n =? 1)%nat.
Proof.
  intros Hk. cbv zeta.
  destruct (main_projections env inputs exit) as (Hres & Happ & Htrace).
  destruct (main_setup_spec env)
    as (V1 & V2 & _ & Htimers & Hposted & Hlis & _ & Hsetup & Hwarn).
  destruct (Hwarn Hk) as (Hin & Hquiet).
  rewrite Hk in Hlis.
  assert (Hshots : List.filter is_single_shot (run_trace (main_setup env) (App__init__ env))
                   = [QtSingleShot 300 SlotInitialHint] /\
                   elapsed (run_state (main_setup env) (App__init__ env)) = 0).
  { clear. destruct env as [kbd xdg plat geo]. run_setup.
    destruct (String.eqb _ "wayland"); destruct (String.prefix "linux" plat);
      destruct kbd; split; reflexivity. }
  destruct Hshots as (Hshots & Hel).
  assert (H0 : hint_phase 0 (run_state (main_setup env) (App__init__ env))).
  { split; [exact Hposted|]. split; [rewrite Hlis; reflexivity|].
    repeat split; assumption. }
  destruct (run_loop_hint_phase (keyboard env) inputs 0 _ H0) as (L1 & L2 & Llis).
  rewrite Nat.add_0_r in L1, L2. rewrite <- app_after_eq in L1. cbn [hint_effects app] in L2.
  assert (Hstop : run_trace (on_listener stop) (app_after env inputs) = []).
  { unfold run_trace. rewrite on_listener_stop_spec, app_after_eq, Llis, Hlis. reflexivity. }
  assert (Hall : main_trace env inputs exit
                 = run_trace (main_setup env) (App__init__ env)
                   ++ hint_effects (timer_expirations inputs)).
  { rewrite Htrace, Hstop, app_nil_r, L2. reflexivity. }
  assert (Hq : List.filter is_hook_effect (main_trace env inputs exit) = []).
  { rewrite Hall, List.filter_app, Hquiet.
    destruct (timer_expirations inputs) as [|[|n]]; reflexivity. }
  destruct (hint_phase_visible _ _ L1) as (Hv & Hw).
  destruct (stop_frame (app_after env inputs)) as (Sov & _).
  split; [rewrite Hk; reflexivity|].
  split; [exact Hres|].
  split; [rewrite Htrace; apply in_or_app; left; exact Hin|].
  split; [exact Hq|].
  split; [apply no_hook_effect_no_toggle, Hq|].
  split; [exact Hshots|].
  split; [apply (forallb_not_In is_setup_effect); [exact Hsetup | reflexivity]|].
  split; [exact Hall|].
  split; [exact L1|].
  rewrite Happ, Sov. split; assumption.
Qed.

Lemma C5_without_pynput_only_the_hint_shows_witness :
  keyboard env_no_pynput = None /\
  main_trace env_no_pynput [TimerDue 40; KeyDown key_1 f1_0; TimerDue 0] (LoopReturn 0)
  = run_trace (main_setup env_no_pynput) (App__init__ env_no_pynput)
    ++ [QtShow; QtRaise; QtActivateWindow; QtSingleShot 2000 SlotToggleVisibility; QtHide] /\
  _is_visible (overlay (main_app env_no_pynput
                          [TimerDue 40; KeyDown key_1 f1_0; TimerDue 0] (LoopReturn 0)))
  = false /\
  hint_phase 1 (app_after env_no_pynput [TimerDue 40; KeyDown key_1 f1_0]) /\
  timers (app_after env_no_pynput [TimerDue 40; KeyDown key_1 f1_0])
  = [(2340, SlotToggleVisibility)].
Proof.
  split; [reflexivity|].
  pose proof (C5_without_pynput_only_the_hint_shows env_no_pynput
                [TimerDue 40; KeyDown key_1 f1_0; TimerDue 0] (LoopReturn 0) eq_refl)
    as (_ & _ & _ & _ & _ & _ & _ & Htrace & _ & Hvis & _).
  pose proof (C5_without_pynput_only_the_hint_shows env_no_pynput
                [TimerDue 40; KeyDown key_1 f1_0] (LoopReturn 0) eq_refl)
    as (_ & _ & _ & _ & _ & _ & _ & _ & Hphase & _).
  split; [exact Htrace|]. split; [exact Hvis|]. split; [exact Hphase|]. reflexivity.
Defined.

(** C5 as stated fails: without pynput the startup hint still shows the
    window when its timer expires. *)
Lemma C5_counterexample :
  keyboard env_no_pynput = None /\
  In QtShow (main_trace env_no_pynput [TimerDue 0] (LoopReturn 0)) /\
  _is_visible (overlay (app_after env_no_pynput [TimerDue 0])) = true /\
  widget_visible (overlay (app_after env_no_pynput [TimerDue 0])) = true.
Proof.
  split; [reflexivity|]. split; [|split; reflexivity].
  vm_compute. do 10 right. left. reflexivity.
Qed.

Lemma with_callback_app (t1 t2 : trace) :
  with_callback (t1 ++ t2) = with_callback t1 ++ with_callback t2.
Proof.
  induction t1 as [|e t1 IH]; [reflexivity|].
  destruct e; simpl; rewrite IH; reflexivity.
Qed.

Lemma setup_effect_not_toggle (e : effect) : is_setup_effect e = true -> is_OnToggle e = false.
Proof. destruct e; simpl; congruence. Qed.

(** While the hook thread runs, a stretch of key events does to the
    application exactly what the listener does with them, with one toggle
    request queued per callback invocation. *)
Lemma run_loop_key_events (kbd : keyboard_t) (inputs : list input) (a : App) :
  hook_running (listener a) = true ->
  forallb is_key_event inputs = true ->
  listener (run_state (run_loop kbd inputs) a) = snd (hook_calls kbd inputs (listener a)) /\
  run_trace (run_loop kbd inputs) a
    = with_callback (concat (fst (hook_calls kbd inputs (listener a)))) /\
  posted (run_state (run_loop kbd inputs) a)
    = posted a ++ repeat SlotToggleVisibility
                    (toggles (concat (fst (hook_calls kbd inputs (listener a))))) /\
  overlay (run_state (run_loop kbd inputs) a) = overlay a.
Proof.
  revert a. induction inputs as [|i rest IH]; intros a Hrun Hkeys.
  - simpl. rewrite app_nil_r. repeat split.
  - simpl in Hkeys. apply andb_prop in Hkeys as [Hi Hkeys].
    destruct (run_loop_cons kbd i rest a) as [-> ->].
    assert (Hstep : step kbd i a = on_listener (hook_call kbd i) a).
    { rewrite step_spec. destruct i; try discriminate; rewrite Hrun; reflexivity. }
    destruct (listener_call_frame kbd i (listener a)) as (Hl & _ & _).
    assert (Hs : run_state (step kbd i) a
                 = set_posted (posted a ++ repeat SlotToggleVisibility
                                 (toggles (run_trace (hook_call kbd i) (listener a))))
                     (set_app_listener (run_state (hook_call kbd i) (listener a)) a)).
    { unfold run_state at 1. rewrite Hstep, on_listener_spec. reflexivity. }
    assert (Ht : run_trace (step kbd i) a
                 = with_callback (run_trace (hook_call kbd i) (listener a))).
    { unfold run_trace at 1. rewrite Hstep, on_listener_spec. reflexivity. }
    rewrite Ht, Hs. clear Ht Hs Hstep.
    set (a1 := set_posted _ _).
    assert (Hrun1 : hook_running (listener a1) = true).
    { unfold hook_running in *. subst a1. simpl. rewrite Hl. exact Hrun. }
    destruct (IH a1 Hrun1 Hkeys) as (I1 & I2 & I3 & I4).
    rewrite I1, I2, I3, I4. subst a1. simpl.
    unfold run_state, run_trace.
    destruct (hook_call kbd i (listener a)) as [[u l1] t1]. simpl.
    destruct (hook_calls kbd rest l1) as [ts l2]. simpl.
    rewrite with_callback_app, toggles_app, repeat_app, app_assoc. repeat split.
Qed.

(** The listener on three presses of a toggle key, the first at least 0.4
    after the stored timestamp 0.0, the second less than 0.4 and the third
    at least 0.4 after the first: the first and the third invoke the
    callback, each tested against the timestamp of the last accepted
    press. *)
Lemma presses_listener (m : pynput_module) (k : key) (r0 r1 r2 : float)
    (l : KeyboardToggleListener) :
  is_char_one k = true ->
  _last_toggle_monotonic l = f0_0 ->
  _debounce_seconds l = f0_4 ->
  ge r0 f0_4 = true -> close r1 r0 = true -> apart r2 r0 = true ->
  exists l3,
    hook_calls (Some m) (presses_at k r0 r1 r2) l =
      ([[LockAcquire; Monotonic r0; ReadLastToggle f0_0; WriteLastToggle r0; OnToggle;
         LockRelease];
        [LockAcquire; Monotonic r1; ReadLastToggle r0; LockRelease];
        [LockAcquire; Monotonic r2; ReadLastToggle r0; WriteLastToggle r2; OnToggle;
         LockRelease]], l3) /\
    _last_toggle_monotonic l3 = r2.
Proof.
  intros Hk Hlast Hdeb H0 H1 H2. unfold presses_at. cbn [hook_calls hook_call].
  unfold close in H1. apply lt_not_ge in H1. unfold apart in H2.
  rewrite (on_press_toggle_key m r0 k l Hk). cbv zeta. rewrite Hlast, Hdeb, sub_zero, H0.
  cbv beta iota.
  set (l1 := set_last_toggle r0 _).
  rewrite (on_press_toggle_key m r1 k l1 Hk). cbv zeta.
  change (_last_toggle_monotonic l1) with r0.
  change (_debounce_seconds l1) with (_debounce_seconds l). rewrite Hdeb, H1.
  cbv beta iota.
  set (l2 := set_pressed _ l1).
  rewrite (on_press_toggle_key m r2 k l2 Hk). cbv zeta.
  change (_last_toggle_monotonic l2) with r0.
  change (_debounce_seconds l2) with (_debounce_seconds l). rewrite Hdeb, H2.
  cbv beta iota.
  eexists. split; reflexivity.
Qed.

Lemma stop_keeps_queue_and_timestamp (a : App) :
  posted (run_state (on_listener stop) a) = posted a /\
  _last_toggle_monotonic (listener (run_state (on_listener stop) a))
    = _last_toggle_monotonic (listener a).
Proof.
  unfold run_state. rewrite on_listener_stop_spec.
  destruct (_listener (listener a)); split; reflexivity.
Qed.

(** The offsets 0.1 and 0.5 of the scenario, added to clock readings from
    0.4 (the least the first press needs) to a year of uptime, are told
    apart as the scenario expects: the second press is less than 0.4 after
    the first and the third at least 0.4 after it. *)
Lemma scenario_offsets_resolved :
  forallb (fun r0 => ge r0 f0_4 && close (add r0 f0_1) r0 && apart (add r0 f0_5) r0)
          [f0_4; f0_5; f1_0; of_Z 60; of_Z 3600; of_Z 86400; of_Z 2592000; of_Z 31536000]
  = true.
Proof. vm_compute. reflexivity. Qed.

(** C4: end to end, with pynput present, three toggle-key presses: the
    first when the clock, as in the code [time.monotonic()], reads [r0],
    at least 0.4 (the stored timestamp starts at 0.0); the second at [r1],
    less than 0.4 after the first (the event at t=0.1); the third at [r2],
    at least 0.4 after the first (the event at t=0.5).  The callback is
    invoked exactly twice, for the first and for the third press; two
    toggle requests are queued for the overlay and the stored timestamp
    ends at [r2]. *)
Theorem C4_end_to_end_three_presses_toggle_twice
    (env : environment) (m : pynput_module) (k : key) (exit : loop_exit)
    (r0 r1 r2 : float) :
  keyboard env = Some m ->
  is_char_one k = true ->
  ge r0 f0_4 = true ->
  close r1 r0 = true ->
  apart r2 r0 = true ->
  toggles (main_trace env (presses_at k r0 r1 r2) exit) = 2%nat /\
  map toggles (fst (hook_calls (keyboard env) (presses_at k r0 r1 r2)
                      (listener (app_after env []))))
    = [1; 0; 1]%nat /\
  posted (main_app env (presses_at k r0 r1 r2) exit)
    = [SlotToggleVisibility; SlotToggleVisibility] /\
  _last_toggle_monotonic (listener (main_app env (presses_at k r0 r1 r2) exit)) = r2.
Proof.
  intros Hm Hk H0 H1 H2.
  destruct (main_setup_spec env) as (_ & _ & _ & _ & Hposted & Hlis & _ & Hsetup & _).
  rewrite Hm in Hlis.
  set (a0 := run_state (main_setup env) (App__init__ env)) in *.
  assert (Hrun : hook_running (listener a0) = true) by (rewrite Hlis; reflexivity).
  assert (Hlast : _last_toggle_monotonic (listener a0) = f0_0) by (rewrite Hlis; reflexivity).
  assert (Hdeb : _debounce_seconds (listener a0) = f0_4) by (rewrite Hlis; reflexivity).
  assert (Ht0 : toggles (run_trace (main_setup env) (App__init__ env)) = 0%nat).
  { unfold toggles.
    rewrite (forallb_filter_nil is_setup_effect is_OnToggle _ setup_effect_not_toggle Hsetup).
    reflexivity. }
  destruct (presses_listener m k r0 r1 r2 (listener a0) Hk Hlast Hdeb H0 H1 H2)
    as (l3 & Hcalls & Hend).
  assert (Hmap : map toggles (fst (hook_calls (Some m) (presses_at k r0 r1 r2) (listener a0)))
                 = [1; 0; 1]%nat) by (rewrite Hcalls; reflexivity).
  assert (Hsum : toggles (concat (fst (hook_calls (Some m) (presses_at k r0 r1 r2)
                                         (listener a0)))) = 2%nat)
    by (rewrite Hcalls; reflexivity).
  destruct (run_loop_key_events (Some m) (presses_at k r0 r1 r2) a0 Hrun eq_refl)
    as (R1 & R2 & R3 & _).
  split; [|split; [|split]].
  - destruct (main_projections env (presses_at k r0 r1 r2) exit) as (_ & _ & ->).
    destruct (stop_frame (app_after env (presses_at k r0 r1 r2))) as (_ & _ & _ & Hstop).
    fold a0. rewrite !toggles_app, Hstop, Ht0, Hm, R2, toggles_with_callback, Hsum.
    reflexivity.
  - rewrite app_after_eq, Hm. simpl run_loop. exact Hmap.
  - destruct (main_projections env (presses_at k r0 r1 r2) exit) as (_ & -> & _).
    destruct (stop_keeps_queue_and_timestamp (app_after env (presses_at k r0 r1 r2)))
      as (-> & _).
    rewrite app_after_eq. fold a0. rewrite Hm, R3, Hposted, Hsum. reflexivity.
  - destruct (main_projections env (presses_at k r0 r1 r2) exit) as (_ & -> & _).
    destruct (stop_keeps_queue_and_timestamp (app_after env (presses_at k r0 r1 r2)))
      as (_ & ->).
    rewrite app_after_eq. fold a0. rewrite Hm, R1, Hcalls. exact Hend.
Qed.

Lemma C4_end_to_end_three_presses_toggle_twice_witness :
  keyboard env_pynput = Some PynputKeyboard /\
  is_char_one key_1 = true /\
  ge f1_0 f0_4 = true /\
  close (add f1_0 f0_1) f1_0 = true /\
  apart (add f1_0 f0_5) f1_0 = true /\
  toggles (main_trace env_pynput (presses_at key_1 f1_0 (add f1_0 f0_1) (add f1_0 f0_5))
             (LoopReturn 0)) = 2%nat.
Proof.
  repeat (split; [reflexivity|]).
  apply (C4_end_to_end_three_presses_toggle_twice
           env_pynput PynputKeyboard key_1 (LoopReturn 0)
           f1_0 (add f1_0 f0_1) (add f1_0 f0_5)); reflexivity.
Defined.

(** The same three presses on a clock that reads 1.0 at the first of them:
    now the first press passes the debounce test too, and the callback is
    invoked twice. *)
Lemma three_presses_from_1_0_toggle_twice :
  map toggles (fst (hook_calls pynput_ok
                      [KeyDown key_1 f1_0; KeyDown key_1 f1_1; KeyDown key_1 f1_5]
                      (KeyboardToggleListener__init__ pynput_ok))) = [1; 0; 1]%nat /\
  toggles (main_trace env_pynput
             [KeyDown key_1 f1_0; KeyDown key_1 f1_1; KeyDown key_1 f1_5]
             (LoopReturn 0)) = 2%nat.
Proof. split; vm_compute; reflexivity. Qed.

(* ===================================================================== *)
(** * Further properties of the code *)
(* ===================================================================== *)

(** ** The listener *)

Lemma toggle_key_in_union (k : key) (s : gset key) :
  (exists x, x ∈ ({[ k ]} ∪ s : gset key) /\ is_char_one x = true) <->
  is_char_one k = true \/ exists x, x ∈ s /\ is_char_one x = true.
Proof.
  split.
  - intros (x & Hx & H1). apply elem_of_union in Hx as [Hx|Hx].
    + apply elem_of_singleton in Hx. subst x. left. exact H1.
    + right. exists x. split; assumption.
  - intros [Hk|(x & Hx & H1)].
    + exists k. split; [apply elem_of_union_l, elem_of_singleton; reflexivity | exact Hk].
    + exists x. split; [apply elem_of_union_r, Hx | exact H1].
Qed.

(** X1: when [_on_press] invokes the callback.  It does so exactly when
    pynput is loaded, the pressed key or some key already held is a
    [KeyCode] with char "1", and [now - last >= debounce]; it reads the
    clock exactly when the first two hold, and reads it at most at [now]. *)
Theorem X1_on_press_fires_iff
    (kbd : keyboard_t) (now : float) (k : key) (self : KeyboardToggleListener) :
  let t := run_trace (_on_press kbd now k) self in
  let engaged :=
    kbd <> None /\
    (is_char_one k = true \/ exists x, x ∈ _pressed self /\ is_char_one x = true) in
  (In OnToggle t <->
     engaged /\
     ge (sub now (_last_toggle_monotonic self)) (_debounce_seconds self) = true) /\
  (In (Monotonic now) t <-> engaged) /\
  (forall r, In (Monotonic r) t -> r = now).
Proof.
  cbv zeta. unfold run_trace. rewrite on_press_spec. cbv zeta.
  destruct kbd as [m|].
  - assert (Hone : _is_one_key (Some m) (set_pressed ({[ k ]} ∪ _pressed self) self) = true <->
                   (is_char_one k = true \/ exists x, x ∈ _pressed self /\ is_char_one x = true)).
    { rewrite is_one_key_true. apply toggle_key_in_union. }
    destruct (_is_one_key (Some m) _).
    + assert (Heng : is_char_one k = true \/ exists x, x ∈ _pressed self /\ is_char_one x = true)
        by (apply Hone; reflexivity).
      destruct (ge _ _); simpl.
      * split; [|split].
        -- split; [intros _; repeat split; [discriminate | exact Heng] | intros _; tauto].
        -- split; [intros _; split; [discriminate | exact Heng] | intros _; tauto].
        -- intros r Hr; simpl in Hr; intuition congruence.
      * split; [|split].
        -- split; [intros Hr; simpl in Hr; intuition discriminate | intros [_ H]; discriminate].
        -- split; [intros _; split; [discriminate | exact Heng] | intros _; tauto].
        -- intros r Hr; simpl in Hr; intuition congruence.
    + assert (Hno : ~ (is_char_one k = true \/ exists x, x ∈ _pressed self /\ is_char_one x = true)).
      { intros H. apply Hone in H. discriminate. }
      simpl. split; [|split].
      * split; [intros [H|[H|[]]]; discriminate | intros [[_ H] _]; destruct (Hno H)].
      * split; [intros [H|[H|[]]]; discriminate | intros [_ H]; destruct (Hno H)].
      * intros r [H|[H|[]]]; discriminate.
  - simpl. split; [|split].
    + split; [intros [H|[H|[]]]; discriminate | intros [[H _] _]; destruct (H eq_refl)].
    + split; [intros [H|[H|[]]]; discriminate | intros [H _]; destruct (H eq_refl)].
    + intros r [H|[H|[]]]; discriminate.
Qed.

Lemma last_after_fire (now d : float) (fs : list float) :
  List.last (now :: fs) d = List.last fs now.
Proof.
  revert now d. induction fs as [|f fs IH]; intros now d; [reflexivity|].
  change (List.last (now :: f :: fs) d) with (List.last (f :: fs) d).
  rewrite (IH f d), (IH f now). reflexivity.
Qed.

(** One hook event: whether it fired, and what it did to the timestamp. *)
Lemma hook_call_fire (kbd : keyboard_t) (i : input) (self : KeyboardToggleListener) :
  let self1 := run_state (hook_call kbd i) self in
  let t := run_trace (hook_call kbd i) self in
  _debounce_seconds self1 = _debounce_seconds self /\
  ((toggles t = 1%nat /\ is_KeyDown i = true /\
    ge (sub (reading i) (_last_toggle_monotonic self)) (_debounce_seconds self) = true /\
    _last_toggle_monotonic self1 = reading i)
   \/
   (toggles t = 0%nat /\ _last_toggle_monotonic self1 = _last_toggle_monotonic self)).
Proof.
  cbv zeta. unfold run_state, run_trace.
  destruct i as [k now|k| |]; simpl; try (split; [reflexivity | right; split; reflexivity]).
  rewrite on_press_spec. cbv zeta.
  destruct (_is_one_key kbd _); [destruct (ge _ _) eqn:Hge|]; simpl;
    (split; [reflexivity|]);
    [left; repeat split; assumption | right; split; reflexivity | right; split; reflexivity].
Qed.

(** X2: the debounce as a rate limit.  Over any sequence of hook events
    (any keys, presses and releases, any clock readings) the readings at
    which the callback was invoked are each at least 0.4 after the one
    before, the first being at least 0.4 after the timestamp stored at the
    start; the timestamp stored at the end is the last of them; and there
    are as many of them as callback invocations, never more than
    key-down events. *)
Theorem X2_callbacks_at_least_debounce_apart
    (kbd : keyboard_t) (evs : list input) (self : KeyboardToggleListener) :
  _debounce_seconds self = f0_4 ->
  let ts := fst (hook_calls kbd evs self) in
  let self' := snd (hook_calls kbd evs self) in
  let fs := fire_times evs ts in
  chained apart (_last_toggle_monotonic self) fs = true /\
  _last_toggle_monotonic self' = List.last fs (_last_toggle_monotonic self) /\
  toggles (concat ts) = length fs /\
  (length fs <= length (List.filter is_KeyDown evs))%nat.
Proof.
  cbv zeta. revert self. induction evs as [|i evs IH]; intros self Hd.
  - simpl. repeat split; lia.
  - simpl hook_calls.
    destruct (hook_call_fire kbd i self) as (Hd1 & Hfire).
    unfold run_state, run_trace in Hd1, Hfire.
    destruct (hook_call kbd i self) as [[u self1] t]. simpl in Hd1, Hfire.
    assert (Hd' : _debounce_seconds self1 = f0_4) by congruence.
    specialize (IH self1 Hd').
    destruct (hook_calls kbd evs self1) as [ts self2]. simpl in IH |- *.
    destruct IH as (I1 & I2 & I3 & I4).
    rewrite toggles_app.
    destruct Hfire as [(Ht & Hdown & Hge & Hlast)|(Ht & Hlast)]; rewrite Ht;
      [change (0 <? 1)%nat with true | change (0 <? 0)%nat with false];
      cbv iota; rewrite ?app_nil_l.
    + rewrite Hdown. rewrite Hlast in I1, I2. rewrite Hd in Hge.
      change ([reading i] ++ fire_times evs ts) with (reading i :: fire_times evs ts).
      split; [|split; [|split]].
      * simpl. unfold apart at 1. rewrite Hge, I1. reflexivity.
      * rewrite last_after_fire. exact I2.
      * simpl. rewrite I3. reflexivity.
      * simpl. lia.
    + rewrite Hlast in I1, I2.
      split; [exact I1|]. split; [exact I2|]. split; [exact I3|].
      destruct (is_KeyDown i); simpl; lia.
Qed.

Lemma X2_callbacks_at_least_debounce_apart_witness :
  let evs := [KeyDown key_1 f1_0; KeyDown key_a f1_25; KeyUp key_1; KeyDown key_a f1_5;
              KeyUp key_a; KeyDown key_1 f2_0] in
  let self := KeyboardToggleListener__init__ pynput_ok in
  _debounce_seconds self = f0_4 /\
  fire_times evs (fst (hook_calls pynput_ok evs self)) = [f1_0; f2_0] /\
  chained apart (_last_toggle_monotonic self)
    (fire_times evs (fst (hook_calls pynput_ok evs self))) = true.
Proof.
  cbv zeta. split; [reflexivity|]. split; [vm_compute; reflexivity|].
  apply (X2_callbacks_at_least_debounce_apart pynput_ok
           [KeyDown key_1 f1_0; KeyDown key_a f1_25; KeyUp key_1; KeyDown key_a f1_5;
            KeyUp key_a; KeyDown key_1 f2_0]
           (KeyboardToggleListener__init__ pynput_ok)).
  reflexivity.
Defined.

Lemma listener_eta (self : KeyboardToggleListener) :
  set_pressed (_pressed self) self = self.
Proof. destruct self; reflexivity. Qed.

(** X3: press then release.  After [_on_press k] followed by
    [_on_release k] the pressed set is the old one without [k], so a key
    that was not held before leaves the set exactly as it was; a press of a
    key already held (keyboard auto-repeat) does not change the set. *)
Theorem X3_press_release_round_trip
    (kbd : keyboard_t) (now : float) (k : key) (self : KeyboardToggleListener) :
  let pressed := run_state (_on_press kbd now k) self in
  let released := run_state (_on_press kbd now k ;; _on_release k) self in
  _pressed released = _pressed self ∖ {[ k ]} /\
  (k ∉ _pressed self -> _pressed released = _pressed self) /\
  k ∈ _pressed pressed /\
  (k ∈ _pressed self -> _pressed pressed = _pressed self).
Proof.
  cbv zeta. rewrite run_state_bind. unfold run_state. rewrite on_release_spec.
  assert (Hp : _pressed (_on_press kbd now k self).1.2 = {[ k ]} ∪ _pressed self).
  { rewrite on_press_spec. cbv zeta.
    destruct (_is_one_key kbd _); [destruct (ge _ _)|]; reflexivity. }
  simpl. rewrite Hp. split; [|split; [|split]].
  - apply set_eq. intros x.
    rewrite !elem_of_difference, elem_of_union, elem_of_singleton. tauto.
  - intros Hk. apply set_eq. intros x.
    rewrite !elem_of_difference, elem_of_union, elem_of_singleton.
    split; [tauto|]. intros Hx. split; [tauto|]. intros ->. exact (Hk Hx).
  - apply elem_of_union_l, elem_of_singleton. reflexivity.
  - intros Hk. apply set_eq. intros x.
    rewrite elem_of_union, elem_of_singleton. split; [intros [->|Hx]; assumption | tauto].
Qed.

Lemma X3_press_release_round_trip_witness :
  (key_a ∉ _pressed holding_1) /\
  _pressed (run_state (_on_press pynput_ok f2_0 key_a ;; _on_release key_a) holding_1)
  = _pressed holding_1.
Proof.
  assert (H : key_a ∉ _pressed holding_1).
  { apply (bool_decide_eq_false_1 (key_a ∈ _pressed holding_1)). vm_compute. reflexivity. }
  split; [exact H|].
  apply (X3_press_release_round_trip pynput_ok f2_0 key_a holding_1). exact H.
Defined.

(** X4: releasing a key that is not held.  [discard] does not raise: the
    listener is left exactly as it was, with only the lock taken and
    released; hence a second release of the same key changes nothing. *)
Theorem X4_release_of_key_not_held_is_noop (k : key) (self : KeyboardToggleListener) :
  k ∉ _pressed self ->
  _on_release k self = (tt, self, [LockAcquire; LockRelease]) /\
  run_state (_on_release k ;; _on_release k) self = run_state (_on_release k) self.
Proof.
  intros Hk.
  assert (Hs : _pressed self ∖ {[ k ]} = _pressed self).
  { apply set_eq. intros x. rewrite elem_of_difference, elem_of_singleton.
    split; [tauto|]. intros Hx. split; [exact Hx|]. intros ->. exact (Hk Hx). }
  split.
  - rewrite on_release_spec, Hs, listener_eta. reflexivity.
  - rewrite run_state_bind. cbv beta.
    change (run_state (_on_release k) self) with (set_pressed (_pressed self ∖ {[ k ]}) self).
    rewrite Hs, listener_eta.
    change (run_state (_on_release k) self) with (set_pressed (_pressed self ∖ {[ k ]}) self).
    rewrite Hs, listener_eta. reflexivity.
Qed.

Lemma X4_release_of_key_not_held_is_noop_witness :
  (key_a ∉ _pressed (KeyboardToggleListener__init__ pynput_ok)) /\
  _on_release key_a (KeyboardToggleListener__init__ pynput_ok)
  = (tt, KeyboardToggleListener__init__ pynput_ok, [LockAcquire; LockRelease]).
Proof.
  assert (H : key_a ∉ _pressed (KeyboardToggleListener__init__ pynput_ok)).
  { simpl. apply not_elem_of_empty. }
  split; [exact H|].
  apply (X4_release_of_key_not_held_is_noop key_a (KeyboardToggleListener__init__ pynput_ok) H).
Defined.

(** X5: what the pressed set holds.  After any sequence of hook events a
    key is in the pressed set exactly when the most recent event about it
    is a press (or, with no event about it, when it was in the set
    before); on a fresh listener, exactly the keys pressed and not
    released since. *)
Theorem X5_pressed_set_tracks_last_event
    (kbd : keyboard_t) (evs : list input) (self : KeyboardToggleListener) (x : key) :
  (x ∈ _pressed (snd (hook_calls kbd evs self)) <->
     held x evs (bool_decide (x ∈ _pressed self)) = true) /\
  (x ∈ _pressed (snd (hook_calls kbd evs (KeyboardToggleListener__init__ kbd))) <->
     held x evs false = true).
Proof.
  assert (Hgen : forall self,
             x ∈ _pressed (snd (hook_calls kbd evs self)) <->
             held x evs (bool_decide (x ∈ _pressed self)) = true).
  { clear self. induction evs as [|i evs IH]; intros self.
    - simpl. rewrite bool_decide_eq_true. reflexivity.
    - simpl hook_calls.
      assert (Hstep : bool_decide (x ∈ _pressed (run_state (hook_call kbd i) self)) =
                      match i with
                      | KeyDown k _ => if decide (k = x) then true
                                       else bool_decide (x ∈ _pressed self)
                      | KeyUp k => if decide (k = x) then false
                                   else bool_decide (x ∈ _pressed self)
                      | _ => bool_decide (x ∈ _pressed self)
                      end).
      { destruct i as [k now|k| |]; cbn [hook_call]; try reflexivity.
        - assert (Hp : _pressed (run_state (_on_press kbd now k) self) = {[ k ]} ∪ _pressed self).
          { unfold run_state. rewrite on_press_spec. cbv zeta.
            destruct (_is_one_key kbd _); [destruct (ge _ _)|]; reflexivity. }
          rewrite Hp. destruct (decide (k = x)) as [->|Hne].
          + apply bool_decide_eq_true, elem_of_union_l, elem_of_singleton. reflexivity.
          + apply bool_decide_ext. rewrite elem_of_union, elem_of_singleton.
            split; [intros [->|Hx]; [destruct (Hne eq_refl) | exact Hx] | tauto].
        - change (_pressed (run_state (_on_release k) self)) with (_pressed self ∖ {[ k ]}).
          destruct (decide (k = x)) as [->|Hne].
          + apply bool_decide_eq_false. rewrite elem_of_difference, elem_of_singleton.
            intros [_ H]. apply H. reflexivity.
          + apply bool_decide_ext. rewrite elem_of_difference, elem_of_singleton.
            split; [tauto|]. intros Hx. split; [exact Hx|]. intros ->. apply Hne. reflexivity. }
      unfold run_state in Hstep.
      destruct (hook_call kbd i self) as [[u self1] t]. simpl in Hstep.
      specialize (IH self1). destruct (hook_calls kbd evs self1) as [ts self2].
      simpl in IH |- *. rewrite IH, Hstep. destruct i; reflexivity. }
  split; [apply Hgen|].
  rewrite Hgen. simpl.
  replace (bool_decide (x ∈ (∅ : gset key))) with false; [reflexivity|].
  symmetry. apply bool_decide_eq_false. apply not_elem_of_empty.
Qed.

(** Keys that differ in [vk] only.  The top-row and the keypad "1" are one
    element of the pressed set: pressing both leaves one element,
    releasing either releases the key, and an unrelated press after that
    is silent. *)
Lemma keypad_and_top_row_one_share_an_element :
  key_1_keypad = key_1 /\
  size (_pressed (snd (hook_calls pynput_ok
                         [KeyDown key_1 f1_0; KeyDown key_1_keypad f1_25]
                         (KeyboardToggleListener__init__ pynput_ok)))) = 1%nat /\
  size (_pressed (run_state (_on_release key_1_keypad) holding_1)) = 0%nat /\
  map toggles (fst (hook_calls pynput_ok
                      [KeyDown key_1 f1_0; KeyUp key_1_keypad; KeyDown key_a f2_0]
                      (KeyboardToggleListener__init__ pynput_ok))) = [1; 0; 0]%nat.
Proof. repeat split; vm_compute; reflexivity. Qed.

(** X6: what hook events never touch.  No sequence of presses and releases
    changes the debounce interval or the pynput listener handle: the
    interval stays the 0.4 of [__init__] and a listener built without
    pynput stays without a handle. *)
Theorem X6_hook_events_keep_interval_and_handle
    (kbd : keyboard_t) (evs : list input) (self : KeyboardToggleListener) :
  _debounce_seconds (snd (hook_calls kbd evs self)) = _debounce_seconds self /\
  _listener (snd (hook_calls kbd evs self)) = _listener self /\
  _debounce_seconds (snd (hook_calls kbd evs (KeyboardToggleListener__init__ kbd))) = f0_4 /\
  (kbd = None ->
   _listener (snd (hook_calls kbd evs (KeyboardToggleListener__init__ kbd))) = None).
Proof.
  assert (Hgen : forall self,
             _debounce_seconds (snd (hook_calls kbd evs self)) = _debounce_seconds self /\
             _listener (snd (hook_calls kbd evs self)) = _listener self).
  { clear self. induction evs as [|i evs IH]; intros self; [split; reflexivity|].
    simpl. destruct (listener_call_frame kbd i self) as (Hl & Hd & _).
    unfold run_state in Hl, Hd. destruct (hook_call kbd i self) as [[u self1] t].
    simpl in Hl, Hd. destruct (IH self1) as (I1 & I2).
    destruct (hook_calls kbd evs self1) as [ts self2]. simpl in *. split; congruence. }
  destruct (Hgen self) as (H1 & H2).
  destruct (Hgen (KeyboardToggleListener__init__ kbd)) as (H3 & H4).
  split; [exact H1|]. split; [exact H2|]. split; [rewrite H3; reflexivity|].
  intros ->. rewrite H4. reflexivity.
Qed.

Lemma X6_hook_events_keep_interval_and_handle_witness :
  _listener (snd (hook_calls None [KeyDown key_1 f1_0; KeyUp key_1]
                    (KeyboardToggleListener__init__ None))) = None.
Proof.
  apply (X6_hook_events_keep_interval_and_handle None [KeyDown key_1 f1_0; KeyUp key_1]
           (KeyboardToggleListener__init__ None)).
  reflexivity.
Defined.

(** ** The session-type warning *)

Lemma lower_wayland_letter (c d : ascii) :
  wayland_letter d = true ->
  Ascii.eqb (ascii_lower c) d = Ascii.eqb c d || Ascii.eqb c (capital_of d).
Proof.
  unfold wayland_letter. simpl. rewrite !orb_true_iff, !Ascii.eqb_eq.
  intros [->|[->|[->|[->|[->|[->|H]]]]]]; [..|discriminate];
    destruct c as [[] [] [] [] [] [] [] []]; vm_compute; reflexivity.
Qed.

Lemma lower_spells (s p : string) :
  forallb wayland_letter (list_ascii_of_string p) = true ->
  String.eqb (lower s) p = spells s p.
Proof.
  revert p. induction s as [|c s IH]; intros [|d p] Hp; try reflexivity.
  simpl in Hp. apply andb_prop in Hp as [Hd Hp].
  simpl. rewrite (lower_wayland_letter c d Hd), (IH p Hp).
  destruct (Ascii.eqb c d || Ascii.eqb c (capital_of d)); reflexivity.
Qed.

(** X7: the session-type test ignores case.  [_warn_if_wayland] prints its
    two lines, and nothing else, exactly when XDG_SESSION_TYPE is set to
    "wayland" written in any mix of upper and lower case; with any other
    value, or with the variable unset, it prints nothing; it never changes
    the state it runs in. *)
Theorem X7_wayland_warning_ignores_case (S : Type) (env : environment) (s : S) :
  _warn_if_wayland env s =
    (tt, s,
     if spells (default "" (XDG_SESSION_TYPE env)) "wayland" then
       [Print "[overlay] Detected Wayland session. Global hotkeys may not work due to compositor restrictions.";
        Print "[overlay] If toggle doesn't work, try an X11 session or a compositor that permits global listeners."]
     else []) /\
  (XDG_SESSION_TYPE env = None -> _warn_if_wayland env s = (tt, s, [])).
Proof.
  assert (H : String.eqb (lower (default "" (XDG_SESSION_TYPE env))) "wayland"
              = spells (default "" (XDG_SESSION_TYPE env)) "wayland")
    by (apply lower_spells; reflexivity).
  unfold _warn_if_wayland, when. rewrite H. split.
  - destruct (spells _ _); reflexivity.
  - intros ->. reflexivity.
Qed.

Lemma X7_wayland_warning_ignores_case_witness :
  XDG_SESSION_TYPE (with_session_type None env_pynput) = None /\
  _warn_if_wayland (with_session_type None env_pynput) tt = (tt, tt, []) /\
  run_trace (_warn_if_wayland (with_session_type (Some "WayLand") env_pynput)) tt
  = [Print "[overlay] Detected Wayland session. Global hotkeys may not work due to compositor restrictions.";
     Print "[overlay] If toggle doesn't work, try an X11 session or a compositor that permits global listeners."].
Proof.
  split; [reflexivity|]. split.
  - apply (X7_wayland_warning_ignores_case unit (with_session_type None env_pynput) tt).
    reflexivity.
  - unfold run_trace.
    destruct (X7_wayland_warning_ignores_case unit
                (with_session_type (Some "WayLand") env_pynput) tt) as [-> _].
    reflexivity.
Defined.

Lemma bind_assoc {S A B C} (m : M S A) (f : A -> M S B) (g : B -> M S C) (s : S) :
  bind (bind m f) g s = bind m (fun x => bind (f x) g) s.
Proof.
  unfold bind. destruct (m s) as [[a s1] t1]. destruct (f a s1) as [[b s2] t2].
  destruct (g b s2) as [[c s3] t3]. rewrite app_assoc. reflexivity.
Qed.

(** The warning in front of a computation only puts its lines in front of
    the trace. *)
Lemma warning_then {S B} (env : environment) (k : unit -> M S B) (s : S) :
  bind (_warn_if_wayland env) k s =
  let '(r, s', t) := k tt s in (r, s', run_trace (_warn_if_wayland env) tt ++ t).
Proof.
  unfold bind, run_trace, _warn_if_wayland, when.
  destruct (String.eqb _ "wayland"); unfold perform, ret; simpl;
    destruct (k tt s) as [[r s'] t]; reflexivity.
Qed.

(** X8: the warning is advisory only.  Whatever XDG_SESSION_TYPE holds,
    [main] ends with the same result and the same final state, and its
    trace is the warning's lines (if any) followed by one and the same
    sequence of effects. *)
Theorem X8_session_type_changes_only_the_warning
    (env : environment) (v : option string) (inputs : list input) (exit : loop_exit) :
  let env' := with_session_type v env in
  main_result env' inputs exit = main_result env inputs exit /\
  main_app env' inputs exit = main_app env inputs exit /\
  exists rest : trace,
    main_trace env inputs exit = run_trace (_warn_if_wayland env) tt ++ rest /\
    main_trace env' inputs exit = run_trace (_warn_if_wayland env') tt ++ rest.
Proof.
  cbv zeta.
  assert (Hmain : forall e : environment,
             main e inputs exit =
             let '(r, a, t) :=
               bind (bind (on_overlay (RulesOverlay__init__ (platform e) (available_geometry e)))
                       (fun _ => bind (on_listener start)
                                   (fun _ => singleShot 300 SlotInitialHint)))
                    (fun _ => try_finally (app_exec (keyboard e) inputs exit) (on_listener stop))
                    (App__init__ e) in
             (r, a, run_trace (_warn_if_wayland e) tt ++ t)).
  { intros e. unfold main, main_body, main_setup.
    rewrite bind_assoc, warning_then. reflexivity. }
  unfold main_result, main_app, main_trace. rewrite !Hmain.
  destruct env as [kbd xdg plat geo]. unfold with_session_type.
  cbn [keyboard platform available_geometry].
  change (App__init__ (mkEnv kbd v plat geo)) with (App__init__ (mkEnv kbd xdg plat geo)).
  destruct (bind _ _ (App__init__ (mkEnv kbd xdg plat geo))) as [[r a] t].
  cbn [fst snd]. split; [reflexivity|]. split; [reflexivity|].
  exists t. split; reflexivity.
Qed.

(** ** The overlay over a whole run *)

(** A step of the loop leaves the overlay alone or toggles it once. *)
Lemma step_overlay (kbd : keyboard_t) (i : input) (a : App) :
  overlay (run_state (step kbd i) a) = overlay a \/
  overlay (run_state (step kbd i) a) = run_state toggle_visibility (overlay a).
Proof.
  unfold run_state. rewrite step_spec. destruct i as [k now|k| |].
  - destruct (hook_running (listener a)); [rewrite on_listener_spec|]; left; reflexivity.
  - destruct (hook_running (listener a)); [rewrite on_listener_spec|]; left; reflexivity.
  - destruct (pop_earliest (timers a)) as [[[due s] rest]|]; [|left; reflexivity].
    rewrite call_spec. right. destruct s; reflexivity.
  - destruct (posted a) as [|s rest]; [left; reflexivity|].
    rewrite call_spec. right. destruct s; reflexivity.
Qed.

Lemma run_loop_overlay_invariant (P : RulesOverlay -> Prop) (kbd : keyboard_t)
    (inputs : list input) (a : App) :
  (forall o, P o -> P (run_state toggle_visibility o)) ->
  P (overlay a) -> P (overlay (run_state (run_loop kbd inputs) a)).
Proof.
  intros Htoggle. revert a. induction inputs as [|i rest IH]; intros a Ha; [exact Ha|].
  destruct (run_loop_cons kbd i rest a) as [-> _]. apply IH.
  destruct (step_overlay kbd i a) as [-> | ->]; [exact Ha | apply Htoggle, Ha].
Qed.

(** X9: the widget follows [_is_visible], and the window flags stay.  At
    every moment of a run of [main] (after any inputs, and when [main] is
    done) the widget is shown exactly when [_is_visible] is true, and the
    window flags are those set at construction: frameless, always on top
    and tool, plus the window-manager bypass exactly when [sys.platform]
    starts with "linux". *)
Theorem X9_widget_follows_is_visible_and_flags_stay
    (env : environment) (inputs : list input) (exit : loop_exit) :
  let during := overlay (app_after env inputs) in
  let final := overlay (main_app env inputs exit) in
  widget_visible during = _is_visible during /\
  widget_visible final = _is_visible final /\
  widget_flags final = widget_flags during /\
  widget_flags during =
    [FramelessWindowHint; WindowStaysOnTopHint; Tool]
    ++ (if String.prefix "linux" (platform env) then [X11BypassWindowManagerHint] else []).
Proof.
  cbv zeta.
  destruct (main_projections env inputs exit) as (_ & -> & _).
  destruct (stop_frame (app_after env inputs)) as (-> & _).
  rewrite app_after_eq.
  set (P := fun o : RulesOverlay =>
              widget_visible o = _is_visible o /\
              widget_flags o =
                [FramelessWindowHint; WindowStaysOnTopHint; Tool]
                ++ (if String.prefix "linux" (platform env)
                    then [X11BypassWindowManagerHint] else [])).
  assert (HP : P (overlay (run_state (run_loop (keyboard env) inputs)
                             (run_state (main_setup env) (App__init__ env))))).
  { apply run_loop_overlay_invariant.
    - intros o [Hv Hf]. unfold P, run_state. rewrite toggle_visibility_spec.
      destruct (_is_visible o); simpl; split; try reflexivity; exact Hf.
    - unfold P. destruct env as [kbd xdg plat geo]. run_setup.
      destruct (String.eqb _ "wayland"); destruct (String.prefix "linux" plat);
        destruct kbd; split; reflexivity. }
  destruct HP as [Hv Hf]. repeat split; assumption.
Qed.

(** ** Toggle requests *)

Lemma visibility_calls_app (t1 t2 : trace) :
  visibility_calls (t1 ++ t2) = (visibility_calls t1 + visibility_calls t2)%nat.
Proof. unfold visibility_calls. rewrite List.filter_app, List.length_app. reflexivity. Qed.

Lemma emits_with_callback (t : trace) :
  List.filter is_emit t = [] ->
  length (List.filter is_emit (with_callback t)) = toggles t.
Proof.
  unfold toggles. induction t as [|e t IH]; [reflexivity|].
  destruct e; simpl; try discriminate; intros H; rewrite ?(IH H); reflexivity.
Qed.

(** The trace of a hook call holds lock, clock and callback effects only. *)
Lemma hook_call_trace (kbd : keyboard_t) (i : input) (l : KeyboardToggleListener) :
  visibility_calls (with_callback (run_trace (hook_call kbd i) l)) = 0%nat /\
  List.filter is_emit (run_trace (hook_call kbd i) l) = [].
Proof.
  unfold run_trace. destruct i as [k now|k| |]; simpl; try (split; reflexivity).
  rewrite on_press_spec. cbv zeta.
  destruct (_is_one_key kbd _); [destruct (ge _ _)|]; split; reflexivity.
Qed.

Lemma toggle_visibility_counts (o : RulesOverlay) :
  visibility_calls (run_trace toggle_visibility o) = 1%nat /\
  toggles (run_trace toggle_visibility o) = 0%nat /\
  List.filter is_emit (run_trace toggle_visibility o) = [] /\
  _is_visible (run_state toggle_visibility o) = negb (_is_visible o).
Proof.
  unfold run_trace, run_state. rewrite toggle_visibility_spec.
  destruct (_is_visible o); repeat split.
Qed.

Lemma pop_earliest_sum (ts : list (Z * slot)) :
  match pop_earliest ts with
  | None => ts = []
  | Some (t, rest) =>
      list_sum (map (fun d => slot_toggles (snd d)) ts)
      = (slot_toggles (snd t) + list_sum (map (fun d => slot_toggles (snd d)) rest))%nat
  end.
Proof.
  induction ts as [|t ts IH]; [reflexivity|]. simpl.
  destruct (pop_earliest ts) as [[u rest]|].
  - destruct (fst u <? fst t); simpl; [rewrite IH; lia | reflexivity].
  - subst ts. simpl. lia.
Qed.

Lemma posted_sum (q : list slot) (n : nat) :
  list_sum (map slot_toggles (q ++ repeat SlotToggleVisibility n))
  = (list_sum (map slot_toggles q) + n)%nat.
Proof.
  rewrite map_app, list_sum_app. f_equal.
  induction n as [|n IH]; [reflexivity|]. simpl. rewrite IH. reflexivity.
Qed.

(** What one step does to the count of toggles made, pending and
    requested. *)
Lemma step_conserves (kbd : keyboard_t) (i : input) (a : App) :
  let a' := run_state (step kbd i) a in
  let t := run_trace (step kbd i) a in
  (visibility_calls t + pending_toggles a' = pending_toggles a + toggles t)%nat /\
  length (List.filter is_emit t) = toggles t /\
  _is_visible (overlay a') = xorb (_is_visible (overlay a)) (Nat.odd (visibility_calls t)).
Proof.
  cbv zeta. unfold run_state, run_trace. rewrite step_spec.
  assert (Hkey : forall j : input,
             let r := on_listener (hook_call kbd j) a in
             (visibility_calls r.2 + pending_toggles r.1.2 = pending_toggles a + toggles r.2)%nat /\
             length (List.filter is_emit r.2) = toggles r.2 /\
             _is_visible (overlay r.1.2) = xorb (_is_visible (overlay a)) (Nat.odd (visibility_calls r.2))).
  { intros j. cbv zeta. rewrite on_listener_spec. cbn [fst snd].
    destruct (hook_call_trace kbd j (listener a)) as (Hv & He).
    rewrite Hv, toggles_with_callback, (emits_with_callback _ He).
    unfold pending_toggles. cbn [timers posted overlay set_posted set_app_listener].
    rewrite posted_sum. simpl. rewrite xorb_false_r. repeat split. apply Nat.add_assoc. }
  assert (Hcall : forall (s : slot) (b : App),
             let r := call s b in
             (visibility_calls r.2 + pending_toggles r.1.2
              = pending_toggles b + slot_toggles s + toggles r.2)%nat /\
             length (List.filter is_emit r.2) = toggles r.2 /\
             _is_visible (overlay r.1.2) = xorb (_is_visible (overlay b)) (Nat.odd (visibility_calls r.2))).
  { intros s b. cbv zeta. rewrite call_spec. cbv zeta.
    destruct (toggle_visibility_counts (overlay b)) as (Hv & Ht & He & Hvis).
    unfold pending_toggles.
    destruct s; cbn [fst snd timers posted overlay set_timers set_overlay slot_toggles].
    - rewrite visibility_calls_app, toggles_app, List.filter_app, List.length_app, Hv, Ht, He, Hvis.
      rewrite map_app, list_sum_app.
      change (toggles [QtSingleShot 2000 SlotToggleVisibility]) with 0%nat.
      simpl. rewrite xorb_true_r. repeat split. lia.
    - rewrite Hv, Ht, He, Hvis. simpl. rewrite xorb_true_r. repeat split. lia. }
  destruct i as [k now|k|late|].
  - destruct (hook_running (listener a)); [apply (Hkey (KeyDown k now))|].
    unfold toggles, visibility_calls. simpl. rewrite xorb_false_r. repeat split. lia.
  - destruct (hook_running (listener a)); [apply (Hkey (KeyUp k))|].
    unfold toggles, visibility_calls. simpl. rewrite xorb_false_r. repeat split. lia.
  - pose proof (pop_earliest_sum (timers a)) as Hpop.
    destruct (pop_earliest (timers a)) as [[[due s] rest]|].
    + destruct (Hcall s (set_elapsed (Z.max (elapsed a) due + Z.max 0 late) (set_timers rest a)))
        as (H1 & H2 & H3).
      split; [|split; assumption].
      unfold pending_toggles in H1 at 2. cbn [timers posted set_elapsed set_timers] in H1.
      unfold pending_toggles at 2. rewrite Hpop. simpl snd. lia.
    + unfold toggles, visibility_calls. simpl. rewrite xorb_false_r. repeat split. lia.
  - destruct (posted a) as [|s rest] eqn:Hq.
    + unfold toggles, visibility_calls. simpl. rewrite xorb_false_r. repeat split. lia.
    + destruct (Hcall s (set_posted rest a)) as (H1 & H2 & H3).
      split; [|split; assumption].
      unfold pending_toggles in H1 at 2. cbn [timers posted set_posted] in H1.
      unfold pending_toggles at 2. rewrite Hq. simpl. lia.
Qed.

Lemma run_loop_conserves (kbd : keyboard_t) (inputs : list input) (a : App) :
  let a' := run_state (run_loop kbd inputs) a in
  let t := run_trace (run_loop kbd inputs) a in
  (visibility_calls t + pending_toggles a' = pending_toggles a + toggles t)%nat /\
  length (List.filter is_emit t) = toggles t /\
  _is_visible (overlay a') = xorb (_is_visible (overlay a)) (Nat.odd (visibility_calls t)).
Proof.
  cbv zeta. revert a. induction inputs as [|i rest IH]; intros a.
  - unfold toggles, visibility_calls, run_state, run_trace, ret. simpl.
    rewrite xorb_false_r. repeat split. lia.
  - destruct (run_loop_cons kbd i rest a) as [-> ->].
    destruct (step_conserves kbd i a) as (S1 & S2 & S3).
    destruct (IH (run_state (step kbd i) a)) as (L1 & L2 & L3).
    rewrite visibility_calls_app, toggles_app, List.filter_app, List.length_app, S2, L2, L3, S3.
    rewrite Nat.odd_add, xorb_assoc. repeat split. lia.
Qed.

Lemma setup_counts (env : environment) :
  let a0 := run_state (main_setup env) (App__init__ env) in
  let t0 := run_trace (main_setup env) (App__init__ env) in
  visibility_calls t0 = 1%nat /\
  List.filter is_emit t0 = [] /\
  pending_toggles a0 = 2%nat /\
  elapsed a0 = 0.
Proof.
  destruct env as [kbd xdg plat geo]. run_setup.
  destruct (String.eqb _ "wayland"); destruct (String.prefix "linux" plat);
    destruct kbd; repeat split.
Qed.

Lemma stop_counts (a : App) :
  visibility_calls (run_trace (on_listener stop) a) = 0%nat /\
  List.filter is_emit (run_trace (on_listener stop) a) = [] /\
  pending_toggles (run_state (on_listener stop) a) = pending_toggles a /\
  timers (run_state (on_listener stop) a) = timers a /\
  posted (run_state (on_listener stop) a) = posted a /\
  elapsed (run_state (on_listener stop) a) = elapsed a.
Proof.
  unfold run_state, run_trace. rewrite on_listener_stop_spec.
  destruct (_listener (listener a)); repeat split.
Qed.

(** The counts over a whole run of [main]. *)
Lemma main_counts (env : environment) (inputs : list input) (exit : loop_exit) :
  let t := main_trace env inputs exit in
  let a := main_app env inputs exit in
  length (List.filter is_emit t) = toggles t /\
  (visibility_calls t + pending_toggles a = 3 + toggles t)%nat /\
  _is_visible (overlay a) = Nat.even (visibility_calls t).
Proof.
  cbv zeta.
  destruct (main_projections env inputs exit) as (_ & -> & ->).
  destruct (main_setup_spec env) as (Hvis & _ & _ & _ & _ & _ & _ & Hsetup & _).
  destruct (setup_counts env) as (V0 & E0 & P0 & _).
  destruct (stop_counts (app_after env inputs)) as (V2 & E2 & P2 & _).
  destruct (stop_frame (app_after env inputs)) as (Sov & _ & _ & T2).
  destruct (run_loop_conserves (keyboard env) inputs
              (run_state (main_setup env) (App__init__ env))) as (L1 & L2 & L3).
  assert (T0 : toggles (run_trace (main_setup env) (App__init__ env)) = 0%nat).
  { unfold toggles.
    rewrite (forallb_filter_nil is_setup_effect is_OnToggle _ setup_effect_not_toggle Hsetup).
    reflexivity. }
  rewrite P2, Sov.
  rewrite !visibility_calls_app, !toggles_app, !List.filter_app, !List.length_app.
  rewrite V0, V2, E0, E2, T0, T2, L2. rewrite P0 in L1.
  rewrite app_after_eq, L3, Hvis.
  cbn [length Nat.add xorb]. rewrite !Nat.add_0_r, Nat.even_succ.
  split; [reflexivity|]. split; [lia | reflexivity].
Qed.

(** X10: no toggle request is lost or made up.  Over a whole run of
    [main], whatever the inputs: every callback invocation emits exactly
    one toggle request; and the show/hide calls made, plus the toggles
    still pending in the timers and in the queue, are three (the hide of
    the constructor and the two toggles of the startup hint) more than the
    callback invocations. *)
Theorem X10_toggle_requests_conserved
    (env : environment) (inputs : list input) (exit : loop_exit) :
  let t := main_trace env inputs exit in
  let a := main_app env inputs exit in
  length (List.filter is_emit t) = toggles t /\
  (visibility_calls t + pending_toggles a = 3 + toggles t)%nat.
Proof.
  cbv zeta. destruct (main_counts env inputs exit) as (H1 & H2 & _). split; assumption.
Qed.

Lemma run_overlay_agrees (env : environment) (inputs : list input) :
  widget_visible (overlay (app_after env inputs)) = _is_visible (overlay (app_after env inputs)).
Proof.
  rewrite app_after_eq.
  apply (run_loop_overlay_invariant (fun o => widget_visible o = _is_visible o)).
  - intros o _. unfold run_state. rewrite toggle_visibility_spec.
    destruct (_is_visible o); reflexivity.
  - destruct (main_setup_spec env) as (-> & -> & _). reflexivity.
Qed.

(** X11: where the overlay ends up.  When [main] is left with no timer
    pending and no toggle request queued, the overlay is visible exactly
    when the callback was invoked an odd number of times: the startup hint
    cancels itself and every accepted key press flips the overlay once. *)
Theorem X11_settled_overlay_shows_parity_of_toggles
    (env : environment) (inputs : list input) (exit : loop_exit) :
  timers (main_app env inputs exit) = [] ->
  posted (main_app env inputs exit) = [] ->
  _is_visible (overlay (main_app env inputs exit)) = Nat.odd (toggles (main_trace env inputs exit)) /\
  widget_visible (overlay (main_app env inputs exit)) = Nat.odd (toggles (main_trace env inputs exit)).
Proof.
  intros Ht Hq.
  destruct (main_counts env inputs exit) as (_ & Hsum & Hvis).
  unfold pending_toggles in Hsum. rewrite Ht, Hq in Hsum. simpl in Hsum.
  assert (Hn : visibility_calls (main_trace env inputs exit)
               = S (S (S (toggles (main_trace env inputs exit))))) by lia.
  assert (Hodd : _is_visible (overlay (main_app env inputs exit))
                 = Nat.odd (toggles (main_trace env inputs exit))).
  { rewrite Hvis, Hn, Nat.even_succ, Nat.odd_succ, Nat.even_succ. reflexivity. }
  split; [exact Hodd|]. rewrite <- Hodd.
  destruct (main_projections env inputs exit) as (_ & -> & _).
  destruct (stop_frame (app_after env inputs)) as (-> & _).
  apply run_overlay_agrees.
Qed.

Lemma X11_settled_overlay_shows_parity_of_toggles_witness :
  let inputs := [KeyDown key_1 f1_0; TimerDue 0; Dispatch; KeyUp key_1; TimerDue 0] in
  timers (main_app env_pynput inputs (LoopReturn 0)) = [] /\
  posted (main_app env_pynput inputs (LoopReturn 0)) = [] /\
  toggles (main_trace env_pynput inputs (LoopReturn 0)) = 1%nat /\
  _is_visible (overlay (main_app env_pynput inputs (LoopReturn 0)))
  = Nat.odd (toggles (main_trace env_pynput inputs (LoopReturn 0))).
Proof.
  cbv zeta. split; [reflexivity|]. split; [reflexivity|]. split; [vm_compute; reflexivity|].
  apply (X11_settled_overlay_shows_parity_of_toggles env_pynput
           [KeyDown key_1 f1_0; TimerDue 0; Dispatch; KeyUp key_1; TimerDue 0] (LoopReturn 0));
    reflexivity.
Defined.

(** ** The startup hint and the life of the hook thread *)

Lemma repeat_toggle_requests (n : nat) :
  Forall (fun s => s = SlotToggleVisibility) (repeat SlotToggleVisibility n).
Proof. induction n as [|n IH]; simpl; constructor; [reflexivity | exact IH]. Qed.

(** A step that is no timer expiration keeps timers and time, and the
    queue keeps holding calls of [toggle_visibility] only. *)
Lemma step_keeps_timers (kbd : keyboard_t) (i : input) (a : App) :
  is_TimerDue i = false ->
  Forall (fun s => s = SlotToggleVisibility) (posted a) ->
  Forall (fun s => s = SlotToggleVisibility) (posted (run_state (step kbd i) a)) /\
  timers (run_state (step kbd i) a) = timers a /\
  elapsed (run_state (step kbd i) a) = elapsed a.
Proof.
  intros Hi Hq. unfold run_state. rewrite step_spec.
  destruct i as [k now|k|late|]; try discriminate.
  - destruct (hook_running (listener a)); [|repeat split; assumption].
    rewrite on_listener_spec. cbn [fst snd posted timers elapsed set_posted set_app_listener].
    split; [|split; reflexivity]. apply Forall_app. split; [exact Hq|].
    apply repeat_toggle_requests.
  - destruct (hook_running (listener a)); [|repeat split; assumption].
    rewrite on_listener_spec. cbn [fst snd posted timers elapsed set_posted set_app_listener].
    split; [|split; reflexivity]. apply Forall_app. split; [exact Hq|].
    apply repeat_toggle_requests.
  - destruct a as [o l ts q el]. cbn [timers posted elapsed] in *.
    destruct q as [|s rest]; [repeat split; assumption|].
    apply Forall_cons_iff in Hq as [-> Hq]. rewrite call_spec.
    split; [exact Hq | split; reflexivity].
Qed.

Lemma step_hint_schedule (kbd : keyboard_t) (i : input) (n : nat) (ran : Z) (a : App) :
  hint_schedule n ran a ->
  hint_schedule ((if is_TimerDue i then 1 else 0) + n)
    (match n, i with O, TimerDue late => 300 + Z.max 0 late | _, _ => ran end)
    (run_state (step kbd i) a).
Proof.
  intros (Hq & Hn).
  destruct (is_TimerDue i) eqn:Hi.
  - destruct i as [k now|k|late|]; try discriminate.
    unfold run_state. rewrite step_spec.
    destruct a as [o l ts q el]. cbn [timers posted elapsed] in *.
    destruct n as [|[|n]].
    + destruct Hn as (-> & ->). cbn [pop_earliest]. rewrite call_spec.
      split; [exact Hq|]. cbn. split; reflexivity.
    + destruct Hn as (-> & ->). cbn [pop_earliest]. rewrite call_spec.
      split; [exact Hq|]. cbn. split; [reflexivity | lia].
    + destruct Hn as (-> & Hel). cbn [pop_earliest]. split; [exact Hq|].
      cbn. split; [reflexivity | exact Hel].
  - destruct (step_keeps_timers kbd i a Hi Hq) as (Hq' & Ht & He).
    assert (Hran : match n, i with O, TimerDue late => 300 + Z.max 0 late | _, _ => ran end
                   = ran).
    { destruct n; [destruct i; try reflexivity; discriminate | reflexivity]. }
    rewrite Hran. split; [exact Hq'|]. cbn [Nat.add]. rewrite Ht, He. exact Hn.
Qed.

Lemma run_loop_hint_schedule_started (kbd : keyboard_t) (inputs : list input)
    (n : nat) (ran : Z) (a : App) :
  hint_schedule (S n) ran a ->
  hint_schedule (timer_expirations inputs + S n) ran (run_state (run_loop kbd inputs) a).
Proof.
  revert n a. induction inputs as [|i rest IH]; intros n a Hn; [exact Hn|].
  destruct (run_loop_cons kbd i rest a) as [-> _].
  rewrite timer_expirations_cons.
  pose proof (step_hint_schedule kbd i (S n) ran a Hn) as Hs. cbn iota in Hs.
  destruct (is_TimerDue i); cbn [Nat.add] in *.
  - replace (S (timer_expirations rest + S n)) with (timer_expirations rest + S (S n))%nat
      by lia.
    apply IH, Hs.
  - apply IH, Hs.
Qed.

Lemma run_loop_hint_schedule (kbd : keyboard_t) (inputs : list input) (ran : Z) (a : App) :
  hint_schedule 0 ran a ->
  hint_schedule (timer_expirations inputs) (hint_ran_at inputs)
    (run_state (run_loop kbd inputs) a).
Proof.
  revert a. induction inputs as [|i rest IH]; intros a Ha.
  - destruct Ha as (Hq & Hn). split; [exact Hq | exact Hn].
  - destruct (run_loop_cons kbd i rest a) as [-> _].
    rewrite timer_expirations_cons.
    pose proof (step_hint_schedule kbd i 0 ran a Ha) as Hs.
    destruct i as [k now|k|late|]; cbn [is_TimerDue Nat.add hint_ran_at] in *;
      try (apply IH, Hs).
    replace (S (timer_expirations rest)) with (timer_expirations rest + 1)%nat by lia.
    apply run_loop_hint_schedule_started, Hs.
Qed.

(** X12: the startup hint keeps its schedule.  Whatever keys are pressed
    and whatever is delivered in between, the only timer [main] has
    pending until the first timer expiration is the hint, due at 300 ms;
    the hint runs when that timer expires, at 300 ms or later; from then
    until the second expiration the only pending timer is the hint's hide,
    due exactly 2000 ms after the hint ran; and afterwards there is none.
    The queue of slot calls only ever holds calls of
    [toggle_visibility]. *)
Theorem X12_startup_hint_keeps_its_schedule
    (env : environment) (inputs : list input) (exit : loop_exit) :
  300 <= hint_ran_at inputs /\
  hint_schedule (timer_expirations inputs) (hint_ran_at inputs) (app_after env inputs) /\
  hint_schedule (timer_expirations inputs) (hint_ran_at inputs) (main_app env inputs exit).
Proof.
  assert (H : hint_schedule (timer_expirations inputs) (hint_ran_at inputs)
                (app_after env inputs)).
  { rewrite app_after_eq. apply (run_loop_hint_schedule _ _ 0).
    destruct (main_setup_spec env) as (_ & _ & _ & Ht & Hq & _).
    destruct (setup_counts env) as (_ & _ & _ & He).
    split; [rewrite Hq; constructor | split; assumption]. }
  split; [|split; [exact H|]].
  - clear H. induction inputs as [|i rest IH]; [cbn [hint_ran_at]; lia|].
    destruct i; cbn [hint_ran_at]; try exact IH; lia.
  - destruct (main_projections env inputs exit) as (_ & -> & _).
    destruct (stop_counts (app_after env inputs)) as (_ & _ & _ & Ht & Hq & He).
    destruct H as (H1 & H2). unfold hint_schedule. rewrite Ht, Hq, He. split; assumption.
Qed.

Lemma loop_effect_not_start_stop (t : trace) :
  forallb is_loop_effect t = true -> ~ In ListenerStart t /\ ~ In ListenerStop t.
Proof.
  intros H. split; apply (forallb_not_In is_loop_effect); try exact H; reflexivity.
Qed.

(** X13: the life of the hook thread.  With pynput present the trace of
    [main] is: effects among which there is no lock, clock, callback or
    toggle request and no start or stop of the listener; then the one
    [ListenerStart]; then everything else, with no further start and no
    stop; then, last, the one [ListenerStop]. *)
Theorem X13_hook_started_once_before_callbacks_stopped_last
    (env : environment) (m : pynput_module) (inputs : list input) (exit : loop_exit) :
  keyboard env = Some m ->
  exists before during : trace,
    main_trace env inputs exit = before ++ ListenerStart :: during ++ [ListenerStop] /\
    List.filter is_hook_effect before = [] /\
    ~ In ListenerStop before /\
    ~ In ListenerStart during /\
    ~ In ListenerStop during.
Proof.
  intros Hm.
  destruct (main_projections env inputs exit) as (_ & _ & ->).
  destruct (main_setup_spec env) as (_ & _ & _ & _ & _ & Hlis & _).
  destruct (run_loop_frame (keyboard env) inputs (run_state (main_setup env) (App__init__ env)))
    as (_ & Llis & Leff).
  destruct (loop_effect_not_start_stop _ Leff) as (Lstart & Lstop).
  assert (Hstop : run_trace (on_listener stop) (app_after env inputs) = [ListenerStop]).
  { unfold run_trace. rewrite on_listener_stop_spec, app_after_eq, Llis, Hlis, Hm. reflexivity. }
  assert (Hsetup : exists before,
             run_trace (main_setup env) (App__init__ env)
             = before ++ [ListenerStart; QtSingleShot 300 SlotInitialHint] /\
             List.filter is_hook_effect before = [] /\ ~ In ListenerStop before).
  { clear - Hm. destruct env as [kbd xdg plat geo]. simpl in Hm. subst kbd. run_setup.
    destruct (String.eqb _ "wayland"); destruct (String.prefix "linux" plat);
      match goal with
      | |- exists before, ?t = _ /\ _ => exists (firstn (length t - 2)%nat t)
      end; (split; [reflexivity|]); (split; [reflexivity|]); simpl; intuition discriminate. }
  destruct Hsetup as (before & -> & Hquiet & Hnostop).
  rewrite Hstop.
  exists before, (QtSingleShot 300 SlotInitialHint
                  :: run_trace (run_loop (keyboard env) inputs)
                       (run_state (main_setup env) (App__init__ env))).
  split; [rewrite <- !app_assoc; reflexivity|].
  split; [exact Hquiet|]. split; [exact Hnostop|].
  split; intros [H|H]; try discriminate; [exact (Lstart H) | exact (Lstop H)].
Qed.

Lemma X13_hook_started_once_before_callbacks_stopped_last_witness :
  keyboard env_pynput = Some PynputKeyboard /\
  exists before during : trace,
    main_trace env_pynput [KeyDown key_1 f1_0; TimerDue 0] (LoopReturn 0)
      = before ++ ListenerStart :: during ++ [ListenerStop] /\
    List.filter is_hook_effect before = [] /\
    ~ In ListenerStop before /\
    ~ In ListenerStart during /\
    ~ In ListenerStop during.
Proof.
  split; [reflexivity|].
  apply (X13_hook_started_once_before_callbacks_stopped_last
           env_pynput PynputKeyboard [KeyDown key_1 f1_0; TimerDue 0] (LoopReturn 0)).
  reflexivity.
Defined.

Lemma loop_effect_not_config (e : effect) : is_loop_effect e = true -> is_widget_config e = false.
Proof. destruct e; simpl; congruence. Qed.

(** X14: the widget is configured once.  Over a whole run of [main] the
    only calls that configure the widget are those of the constructor, in
    this order: the layout holding the panel, the style sheet, fixed width
    480, translucent background on, transparency for mouse events on (the
    overlay is click-through), and the window flags; nothing later turns
    an attribute off or sets layout, style sheet, width or flags again. *)
Theorem X14_widget_configured_once_at_construction
    (env : environment) (inputs : list input) (exit : loop_exit) :
  List.filter is_widget_config (main_trace env inputs exit) =
  [QtSetLayout root;
   QtSetStyleSheet overlay_style_sheet;
   QtSetFixedWidth 480;
   QtSetAttribute WA_TranslucentBackground true;
   QtSetAttribute WA_TransparentForMouseEvents true;
   QtSetWindowFlags
     ([FramelessWindowHint; WindowStaysOnTopHint; Tool]
      ++ (if String.prefix "linux" (platform env) then [X11BypassWindowManagerHint] else []))].
Proof.
  destruct (main_projections env inputs exit) as (_ & _ & ->).
  destruct (run_loop_frame (keyboard env) inputs (run_state (main_setup env) (App__init__ env)))
    as (_ & _ & Leff).
  rewrite !List.filter_app.
  rewrite (forallb_filter_nil is_loop_effect is_widget_config _ loop_effect_not_config Leff).
  assert (Hstop : List.filter is_widget_config
                    (run_trace (on_listener stop) (app_after env inputs)) = []).
  { unfold run_trace. rewrite on_listener_stop_spec.
    destruct (_listener (listener (app_after env inputs))); reflexivity. }
  rewrite Hstop, !app_nil_r.
  destruct env as [kbd xdg plat geo]. run_setup.
  destruct (String.eqb _ "wayland"); destruct (String.prefix "linux" plat);
    destruct kbd; reflexivity.
Qed.
